(** * Server actions of the invoicing dashboard

    A shallow embedding of [app/lib/actions.ts]: the three server actions
    [createInvoice], [updateInvoice] and [deleteInvoice], the zod schema
    they validate with, and the collaborators they call (the SQL store,
    the route cache, the navigation signal and the clock).

    JavaScript numbers are IEEE 754 binary64 values ([spec_float] at
    precision 53, maximal exponent 1024); strings are byte strings (UTF-8);
    a JavaScript object used as a map is a [gmap]. *)

From Stdlib Require Import ZArith String Ascii List Bool Lia.
From Stdlib Require Import Floats.SpecFloat.
From stdpp Require Import gmap strings list.

Local Open Scope string_scope.
Local Open Scope list_scope.
Local Open Scope Z_scope.

(** ** JavaScript numbers *)

Module JSNumber.

Definition prec : Z := 53.
Definition emax : Z := 1024.

(** A number value. The values the runtime produces are the valid ones
    ([valid_binary prec emax]) in canonical form. *)
Definition float : Type := spec_float.

Definition NaN : float := S754_nan.
Definition pos_zero : float := S754_zero false.
Definition neg_zero : float := S754_zero true.
Definition Infinity : float := S754_infinity false.

(** The number value of a mathematical integer (round to nearest, ties
    to even; exact below 2^53). *)
Definition of_Z (n : Z) : float := binary_normalize prec emax n 0 false.

(** [x * y] *)
Definition mul (x y : float) : float := SFmul prec emax x y.

(** [x <= y], [x < y], [x == y] on numbers: false when either is NaN. *)
Definition leb (x y : float) : bool := SFleb x y.
Definition ltb (x y : float) : bool := SFltb x y.
Definition eqb (x y : float) : bool := SFeqb x y.

(** [isNaN(x)] *)
Definition isNaN (x : float) : bool :=
  match x with S754_nan => true | _ => false end.

(** [Number.isInteger(x)]: finite and without fractional part. *)
Definition isInteger (x : float) : bool :=
  match x with
  | S754_zero _ => true
  | S754_finite _ m e =>
      if 0 <=? e then true else (Z.pos m mod 2 ^ (- e) =? 0)
  | _ => false
  end.

(** [Math.round(x)]: the integer nearest to [x], ties towards +Infinity,
    that is floor(x + 1/2) computed exactly. *)
Definition Math_round (x : float) : float :=
  match x with
  | S754_finite s m e =>
      if 0 <=? e then x
      else
        let k := - e in
        let v := cond_Zopp s (Z.pos m) in
        let r := (2 * v + 2 ^ k) / 2 ^ (k + 1) in
        binary_normalize prec emax r 0 s
  | _ => x
  end.

End JSNumber.

Export JSNumber.

(** ** JavaScript strings and the string-to-number conversion *)

Module JSString.

Definition charCode (c : ascii) : Z := Z.of_N (N_of_ascii c).

Definition bytes (l : list Z) : string :=
  string_of_list_ascii (map (fun n => ascii_of_N (Z.to_N n)) l).

(** [s.startsWith(p)], and the rest of [s] after [p]. *)
Fixpoint strip_prefix (p s : string) : option string :=
  match p, s with
  | EmptyString, _ => Some s
  | String a p', String b s' =>
      if Ascii.eqb a b then strip_prefix p' s' else None
  | String _ _, EmptyString => None
  end.

Definition startsWith (s p : string) : bool :=
  match strip_prefix p s with Some _ => true | None => false end.

Fixpoint rev_string (acc s : string) : string :=
  match s with
  | EmptyString => acc
  | String c s' => rev_string (String c acc) s'
  end.

(** [s.split(sep)] for a one-character separator: the pieces between the
    occurrences of [sep], at least one piece. *)
Fixpoint split_aux (sep : ascii) (cur : string) (s : string) : list string :=
  match s with
  | EmptyString => [rev_string EmptyString cur]
  | String c s' =>
      if Ascii.eqb c sep
      then rev_string EmptyString cur :: split_aux sep EmptyString s'
      else split_aux sep (String c cur) s'
  end.

Definition split (sep : ascii) (s : string) : list string :=
  split_aux sep EmptyString s.

(** The white space and line terminator code points the number grammar
    skips (StrWhiteSpaceChar), as UTF-8 byte sequences: TAB, LF, VT, FF,
    CR, SP, U+00A0, U+1680, U+2000..U+200A, U+2028, U+2029, U+202F,
    U+205F, U+3000, U+FEFF. *)
Definition StrWhiteSpaceChar : list string :=
  map bytes
    ([[9]; [10]; [11]; [12]; [13]; [32]; [194; 160]; [225; 154; 128]]
     ++ map (fun b => [226; 128; b]) [128; 129; 130; 131; 132; 133; 134; 135; 136; 137; 138]
     ++ [[226; 128; 168]; [226; 128; 169]; [226; 128; 175]; [226; 129; 159];
         [227; 128; 128]; [239; 187; 191]])%list.

(** One white space character removed from the front, if there is one. *)
Fixpoint strip_one (ws : list string) (s : string) : option string :=
  match ws with
  | [] => None
  | w :: ws' =>
      match strip_prefix w s with
      | Some r => Some r
      | None => strip_one ws' s
      end
  end.

Fixpoint trim_start_fuel (ws : list string) (fuel : nat) (s : string) : string :=
  match fuel with
  | O => s
  | S fuel' =>
      match strip_one ws s with
      | Some r => trim_start_fuel ws fuel' r
      | None => s
      end
  end.

Definition trim_start (ws : list string) (s : string) : string :=
  trim_start_fuel ws (String.length s) s.

(** Leading and trailing white space removed. *)
Definition trim (s : string) : string :=
  let s1 := trim_start StrWhiteSpaceChar s in
  let rws := map (rev_string EmptyString) StrWhiteSpaceChar in
  rev_string EmptyString (trim_start rws (rev_string EmptyString s1)).

End JSString.

Export JSString.

(** ** StringToNumber

    The conversion [Number(s)] applies to a string: white space is trimmed,
    the empty string is [+0], a [0x]/[0o]/[0b] literal is an integer, a
    signed decimal literal (with optional fraction and exponent, or
    [Infinity]) is its value rounded to the nearest binary64 value, and
    anything else is [NaN]. *)

Module StringNumericLiteral.

Definition digit_value (radix : Z) (c : ascii) : option Z :=
  let n := charCode c in
  let v :=
    if (48 <=? n) && (n <=? 57) then Some (n - 48)
    else if (97 <=? n) && (n <=? 122) then Some (n - 87)
    else if (65 <=? n) && (n <=? 90) then Some (n - 55)
    else None in
  match v with
  | Some d => if d <? radix then Some d else None
  | None => None
  end.

(** The longest run of digits at the front of [s]: the value read (on top
    of [acc]), the number of digits, and the rest. *)
Fixpoint read_digits (radix acc n : Z) (s : string) : Z * Z * string :=
  match s with
  | String c s' =>
      match digit_value radix c with
      | Some d => read_digits radix (acc * radix + d) (n + 1) s'
      | None => (acc, n, s)
      end
  | EmptyString => (acc, n, s)
  end.

(** NonDecimalIntegerLiteral, after its prefix: digits only, at least one. *)
Definition NonDecimalIntegerLiteral (radix : Z) (s : string) : float :=
  let '(v, n, rest) := read_digits radix 0 0 s in
  if (0 <? n) && String.eqb rest "" then of_Z v else NaN.

(** ExponentPart, or nothing: the exponent, [None] when the text is
    neither. *)
Definition ExponentPart (s : string) : option Z :=
  match s with
  | EmptyString => Some 0
  | String c s' =>
      if (charCode c =? 101) || (charCode c =? 69) then
        let '(neg, s'') :=
          match s' with
          | String "+" r => (false, r)
          | String "-" r => (true, r)
          | _ => (false, s')
          end in
        let '(v, n, rest) := read_digits 10 0 0 s'' in
        if (0 <? n) && String.eqb rest "" then Some (cond_Zopp neg v) else None
      else None
  end.

(** The number value of [m * 10^scale], negated when [neg]. *)
Definition decimal_value (neg : bool) (m scale : Z) : float :=
  match m with
  | Z.pos p =>
      if 0 <=? scale
      then binary_normalize prec emax (cond_Zopp neg (m * 10 ^ scale)) 0 neg
      else SFdiv prec emax (S754_finite neg p 0)
             (S754_finite false (Z.to_pos (10 ^ (- scale))) 0)
  | _ => S754_zero neg
  end.

Definition StrUnsignedDecimalLiteral (neg : bool) (s : string) : float :=
  if String.eqb s "Infinity" then S754_infinity neg
  else
    let '(ip, ni, r1) := read_digits 10 0 0 s in
    let '(m, nf, r2) :=
      match r1 with
      | String "." r => read_digits 10 ip 0 r
      | _ => (ip, 0, r1)
      end in
    if ni + nf =? 0 then NaN
    else
      match ExponentPart r2 with
      | Some e => decimal_value neg m (e - nf)
      | None => NaN
      end.

Definition StrNumericLiteral (s : string) : float :=
  match s with
  | String "0" (String c r) =>
      if (charCode c =? 120) || (charCode c =? 88) then NonDecimalIntegerLiteral 16 r
      else if (charCode c =? 111) || (charCode c =? 79) then NonDecimalIntegerLiteral 8 r
      else if (charCode c =? 98) || (charCode c =? 66) then NonDecimalIntegerLiteral 2 r
      else StrUnsignedDecimalLiteral false s
  | String "+" r => StrUnsignedDecimalLiteral false r
  | String "-" r => StrUnsignedDecimalLiteral true r
  | _ => StrUnsignedDecimalLiteral false s
  end.

Definition StringToNumber (s : string) : float :=
  let t := trim s in
  if String.eqb t "" then pos_zero else StrNumericLiteral t.

End StringNumericLiteral.

Export StringNumericLiteral.

(** ** Dates

    A time value is a number of milliseconds since the epoch
    (1970-01-01T00:00:00Z); days, years, months and the ISO format are
    those of the language specification. *)

Module JSDate.

Definition msPerDay : Z := 86400000.

Definition Day (t : Z) : Z := t / msPerDay.
Definition TimeWithinDay (t : Z) : Z := t mod msPerDay.

Definition DaysInYear (y : Z) : Z :=
  if negb (y mod 4 =? 0) then 365
  else if negb (y mod 100 =? 0) then 366
  else if negb (y mod 400 =? 0) then 365
  else 366.

Definition DayFromYear (y : Z) : Z :=
  365 * (y - 1970) + (y - 1969) / 4 - (y - 1901) / 100 + (y - 1601) / 400.

Definition TimeFromYear (y : Z) : Z := msPerDay * DayFromYear y.

(** The largest year [y] with [TimeFromYear y <= t]: an estimate from the
    mean length of a year, corrected by at most one. *)
Definition YearFromTime (t : Z) : Z :=
  let d := Day t in
  let y0 := 1970 + (400 * d) / 146097 in
  if DayFromYear (y0 + 1) <=? d then y0 + 1
  else if DayFromYear y0 <=? d then y0
  else y0 - 1.

Definition InLeapYear (t : Z) : Z :=
  if DaysInYear (YearFromTime t) =? 366 then 1 else 0.

Definition DayWithinYear (t : Z) : Z := Day t - DayFromYear (YearFromTime t).

(** Month number, 0 for January to 11 for December. *)
Definition MonthFromTime (t : Z) : Z :=
  let d := DayWithinYear t in
  let leap := InLeapYear t in
  if d <? 31 then 0
  else if d <? 59 + leap then 1
  else if d <? 90 + leap then 2
  else if d <? 120 + leap then 3
  else if d <? 151 + leap then 4
  else if d <? 181 + leap then 5
  else if d <? 212 + leap then 6
  else if d <? 243 + leap then 7
  else if d <? 273 + leap then 8
  else if d <? 304 + leap then 9
  else if d <? 334 + leap then 10
  else 11.

(** Day of the month, 1 to 31. *)
Definition DateFromTime (t : Z) : Z :=
  let d := DayWithinYear t in
  let leap := InLeapYear t in
  match MonthFromTime t with
  | 0 => d + 1
  | 1 => d - 30
  | 2 => d - 58 - leap
  | 3 => d - 89 - leap
  | 4 => d - 119 - leap
  | 5 => d - 150 - leap
  | 6 => d - 180 - leap
  | 7 => d - 211 - leap
  | 8 => d - 242 - leap
  | 9 => d - 272 - leap
  | 10 => d - 303 - leap
  | _ => d - 333 - leap
  end.

Definition HourFromTime (t : Z) : Z := (t / 3600000) mod 24.
Definition MinFromTime (t : Z) : Z := (t / 60000) mod 60.
Definition SecFromTime (t : Z) : Z := (t / 1000) mod 60.
Definition msFromTime (t : Z) : Z := t mod 1000.

Definition digit_char (d : Z) : ascii := ascii_of_N (Z.to_N (48 + d)).

(** The last [w] decimal digits of [n], most significant first, put in
    front of [acc] (a number padded with zeros to width [w]). *)
Fixpoint fixed_digits (w : nat) (n : Z) (acc : string) : string :=
  match w with
  | O => acc
  | S w' => fixed_digits w' (n / 10) (String (digit_char (n mod 10)) acc)
  end.

Definition pad (w : nat) (n : Z) : string := fixed_digits w n "".

(** The year of the ISO format: four digits from 0 to 9999, a sign and six
    digits outside. *)
Definition year_string (y : Z) : string :=
  if (0 <=? y) && (y <=? 9999) then pad 4 y
  else (if y <? 0 then "-" else "+") +:+ pad 6 (Z.abs y).

(** The date part of the ISO format. *)
Definition iso_date (t : Z) : string :=
  year_string (YearFromTime t) +:+ "-" +:+ pad 2 (MonthFromTime t + 1)
    +:+ "-" +:+ pad 2 (DateFromTime t).

Definition iso_time (t : Z) : string :=
  pad 2 (HourFromTime t) +:+ ":" +:+ pad 2 (MinFromTime t) +:+ ":"
    +:+ pad 2 (SecFromTime t) +:+ "." +:+ pad 3 (msFromTime t).

(** [d.toISOString()] for a date of time value [t]:
    YYYY-MM-DDTHH:mm:ss.sssZ. *)
Definition toISOString (t : Z) : string :=
  iso_date t +:+ "T" +:+ iso_time t +:+ "Z".

End JSDate.

Export JSDate.

(** ** Values, objects and form data *)

Module JSValue.

(** The runtime values the actions handle. A [File] is an object; only
    its being one matters here. *)
Inductive JSValue :=
| VUndefined
| VNull
| VString (s : string)
| VNumber (n : float)
| VFile (filename : string).

(** [Number(v)] *)
Definition Number (v : JSValue) : float :=
  match v with
  | VUndefined => NaN
  | VNull => pos_zero
  | VString s => StringToNumber s
  | VNumber n => n
  | VFile _ => NaN
  end.

(** An object literal: its own properties in the order they were written. *)
Definition JSObject : Type := list (string * JSValue).

(** [o[key]]: [undefined] for a property the object does not have. *)
Fixpoint prop (o : JSObject) (key : string) : JSValue :=
  match o with
  | [] => VUndefined
  | (k, v) :: o' => if String.eqb k key then v else prop o' key
  end.

(** A [FormData]: the submitted entries in order; the value of an entry
    is a string or a file. *)
Inductive FormDataEntryValue :=
| EntryString (s : string)
| EntryFile (filename : string).

Definition FormData : Type := list (string * FormDataEntryValue).

Definition entry_value (e : FormDataEntryValue) : JSValue :=
  match e with
  | EntryString s => VString s
  | EntryFile f => VFile f
  end.

(** [formData.get(name)]: the first value of that name, [null] when the
    form has none. *)
Fixpoint get (formData : FormData) (name : string) : JSValue :=
  match formData with
  | [] => VNull
  | (k, v) :: rest => if String.eqb k name then entry_value v else get rest name
  end.

End JSValue.

Export JSValue.
(** ** The schema validator (zod)

    What the actions use of the validation library (zod 3, whose
    [invalid_type_error] parameter the schema is written with): string,
    coerced number and enumeration schemas, objects of them, [omit],
    [parse], [safeParse] and [flatten]. A parser adds the issues it finds
    to the issue list and returns a valid value, a dirty one (a refinement
    failed), or nothing. *)

Module Zod.

Inductive ZodParsedType :=
| pt_string | pt_nan | pt_number | pt_undefined | pt_null | pt_object.

Definition getParsedType (data : JSValue) : ZodParsedType :=
  match data with
  | VUndefined => pt_undefined
  | VNull => pt_null
  | VString _ => pt_string
  | VNumber n => if isNaN n then pt_nan else pt_number
  | VFile _ => pt_object
  end.

Definition type_name (t : ZodParsedType) : string :=
  match t with
  | pt_string => "string"
  | pt_nan => "nan"
  | pt_number => "number"
  | pt_undefined => "undefined"
  | pt_null => "null"
  | pt_object => "object"
  end.

Inductive ZodIssueCode := invalid_type | invalid_enum_value | too_small.

Record ZodIssue := {
  code : ZodIssueCode;
  path : list string;
  message : string
}.

Definition ZodError : Type := list ZodIssue.

Inductive ParseReturn (A : Type) :=
| OK (value : A)
| DIRTY (value : A)
| INVALID.
Arguments OK {A} value.
Arguments DIRTY {A} value.
Arguments INVALID {A}.

(** The messages a schema was created with. *)
Record RawCreateParams := {
  invalid_type_error : option string;
  required_error : option string
}.

Definition no_params : RawCreateParams :=
  {| invalid_type_error := None; required_error := None |}.

(** The library's own messages. *)
Definition default_invalid_type (expected : string) (received : ZodParsedType) : string :=
  match received with
  | pt_undefined => "Required"
  | _ => "Expected " +:+ expected +:+ ", received " +:+ type_name received
  end.

Fixpoint join (sep : string) (l : list string) : string :=
  match l with
  | [] => ""
  | [x] => x
  | x :: l' => x +:+ sep +:+ join sep l'
  end.

Definition joinValues (values : list string) : string :=
  join " | " (map (fun v => "'" +:+ v +:+ "'") values).

Definition default_invalid_enum_value (options : list string) (received : string) : string :=
  "Invalid enum value. Expected " +:+ joinValues options
    +:+ ", received '" +:+ received +:+ "'".

(** The error map of a schema created with [params]: the message of an
    issue of code [c] raised on [data], [defaultError] being the
    library's. The custom messages serve a missing value
    ([required_error]) and a value of the wrong type
    ([invalid_type_error]), and no other issue. *)
Definition customMap (params : RawCreateParams) (c : ZodIssueCode)
    (data : JSValue) (defaultError : string) : string :=
  match c with
  | invalid_enum_value => defaultError
  | _ =>
      match data with
      | VUndefined => default defaultError (required_error params)
      | _ =>
          match c with
          | invalid_type => default defaultError (invalid_type_error params)
          | _ => defaultError
          end
      end
  end.

(** A lower bound on a number: [kind: "min"]. *)
Record ZodNumberCheck := {
  value : float;
  inclusive : bool;
  check_message : string
}.

Inductive ZodType :=
| ZodString (params : RawCreateParams)
| ZodNumber (coerce : bool) (checks : list ZodNumberCheck) (params : RawCreateParams)
| ZodEnum (values : list string) (params : RawCreateParams).

(** [z.string(params)], [z.coerce.number()], [schema.gt(value, {message})],
    [z.enum(values, params)] *)
Definition z_string (params : RawCreateParams) : ZodType := ZodString params.
Definition z_coerce_number : ZodType := ZodNumber true [] no_params.
Definition gt (schema : ZodType) (v : float) (msg : string) : ZodType :=
  match schema with
  | ZodNumber coerce checks params =>
      ZodNumber coerce
        (checks ++ [{| value := v; inclusive := false; check_message := msg |}])
        params
  | _ => schema
  end.
Definition z_enum (values : list string) (params : RawCreateParams) : ZodType :=
  ZodEnum values params.

Definition tooSmall (check : ZodNumberCheck) (n : float) : bool :=
  if inclusive check then ltb n (value check) else leb n (value check).

(** The checks of a number schema, in order: the issues of those that
    fail. *)
Definition run_checks (checks : list ZodNumberCheck) (p : list string)
    (n : float) : list ZodIssue :=
  flat_map
    (fun check =>
       if tooSmall check n
       then [{| code := too_small; path := p; message := check_message check |}]
       else [])
    checks.

(** [schema._parse] on the value [data] found at [p]. *)
Definition _parse (schema : ZodType) (p : list string) (data : JSValue)
    : list ZodIssue * ParseReturn JSValue :=
  match schema with
  | ZodString params =>
      match data with
      | VString _ => ([], OK data)
      | _ =>
          ([{| code := invalid_type; path := p;
               message := customMap params invalid_type data
                            (default_invalid_type "string" (getParsedType data)) |}],
           INVALID)
      end
  | ZodNumber coerce checks params =>
      let data := if coerce then VNumber (Number data) else data in
      match data with
      | VNumber n =>
          if isNaN n then
            ([{| code := invalid_type; path := p;
                 message := customMap params invalid_type data
                              (default_invalid_type "number" pt_nan) |}],
             INVALID)
          else
            match run_checks checks p n with
            | [] => ([], OK data)
            | issues => (issues, DIRTY data)
            end
      | _ =>
          ([{| code := invalid_type; path := p;
               message := customMap params invalid_type data
                            (default_invalid_type "number" (getParsedType data)) |}],
           INVALID)
      end
  | ZodEnum values params =>
      match data with
      | VString s =>
          if existsb (String.eqb s) values then ([], OK data)
          else
            ([{| code := invalid_enum_value; path := p;
                 message := customMap params invalid_enum_value data
                              (default_invalid_enum_value values s) |}],
             INVALID)
      | _ =>
          ([{| code := invalid_type; path := p;
               message := customMap params invalid_type data
                            (default_invalid_type (joinValues values)
                               (getParsedType data)) |}],
           INVALID)
      end
  end.

(** An object schema: its keys with their schemas, in order. Keys of the
    input outside the shape are dropped. *)
Definition ZodObject : Type := list (string * ZodType).

(** [schema.omit(mask)] *)
Definition omit (mask : list string) (schema : ZodObject) : ZodObject :=
  List.filter (fun kv => negb (existsb (String.eqb (fst kv)) mask)) schema.

(** Every key of the shape is parsed, whatever the others gave, so the
    issues of all fields are collected. *)
Fixpoint parse_shape (shape : ZodObject) (data : JSObject)
    : list ZodIssue * list (string * ParseReturn JSValue) :=
  match shape with
  | [] => ([], [])
  | (key, schema) :: shape' =>
      let '(issues, r) := _parse schema [key] (prop data key) in
      let '(issues', pairs) := parse_shape shape' data in
      (issues ++ issues', (key, r) :: pairs)
  end.

(** The parsed pairs put together: nothing if one is invalid, a dirty
    object if one is dirty. *)
Fixpoint mergeObjectSync (pairs : list (string * ParseReturn JSValue))
    : ParseReturn JSObject :=
  match pairs with
  | [] => OK []
  | (key, r) :: pairs' =>
      match r, mergeObjectSync pairs' with
      | INVALID, _ | _, INVALID => INVALID
      | OK v, OK o => OK ((key, v) :: o)
      | OK v, DIRTY o | DIRTY v, OK o | DIRTY v, DIRTY o => DIRTY ((key, v) :: o)
      end
  end.

Definition parse_object (schema : ZodObject) (data : JSObject)
    : list ZodIssue * ParseReturn JSObject :=
  let '(issues, pairs) := parse_shape schema data in
  (issues, mergeObjectSync pairs).

Inductive SafeParseReturnType :=
| SafeParseSuccess (data : JSObject)
| SafeParseError (error : ZodError).

(** [schema.safeParse(data)]: never raises. *)
Definition safeParse (schema : ZodObject) (data : JSObject) : SafeParseReturnType :=
  match parse_object schema data with
  | (_, OK o) => SafeParseSuccess o
  | (issues, _) => SafeParseError issues
  end.

(** [error.flatten().fieldErrors]: for each field, the messages of its
    issues, in order. *)
Definition fieldErrors (error : ZodError) : gmap string (list string) :=
  fold_left
    (fun acc sub =>
       match path sub with
       | [] => acc
       | key :: _ => <[key := default [] (acc !! key) ++ [message sub]]> acc
       end)
    error ∅.

End Zod.

Export Zod.

(** ** The collaborators: store, route cache, navigation, clock *)

Module Runtime.

(** A row of the [invoices] table. The columns hold the values the
    statements bind. *)
Record InvoiceRow := {
  id : string;
  customer_id : JSValue;
  amount : JSValue;
  status : JSValue;
  date : JSValue
}.

(** The three statements of the actions, with their parameters:
    [INSERT INTO invoices (customer_id, amount, status, date) VALUES (...)],
    [UPDATE invoices SET customer_id = .., amount = .., status = .. WHERE id = ..]
    and [DELETE FROM invoices WHERE id = ..]. *)
Inductive Statement :=
| INSERT_INTO_invoices (customer_id amount status date : JSValue)
| UPDATE_invoices (customer_id amount status : JSValue) (id : string)
| DELETE_FROM_invoices (id : string).

(** What a call does to the outside. *)
Inductive Effect :=
| StoreWrite (statement : Statement)
| StoreFailure (statement : Statement)
| RevalidatePath (p : string)
| RevalidateFailure (p : string)
| Redirect (url : string).

(** An effect, with the number of [try] blocks it happened inside. *)
Record Event := { scope : nat; effect : Effect }.

Record World := {
  invoices : list InvoiceRow;
  events : list Event
}.

(** What the collaborators do during one call: the clock's reading (in
    milliseconds since the epoch), whether the store rejects the
    statement, the identifier it gives a new row, and whether the cache
    invalidation fails. *)
Record Environment := {
  clock : Z;
  store_rejects : bool;
  generated_id : string;
  revalidate_fails : bool
}.

(** What can be thrown: the redirect signal, a validation error, a store
    error, a cache error. *)
Inductive Thrown :=
| NEXT_REDIRECT (url : string)
| ThrownZodError (error : ZodError)
| StoreError
| RevalidateError.

Inductive Completion (A : Type) :=
| Return (a : A)
| Throw (e : Thrown).
Arguments Return {A} a.
Arguments Throw {A} e.

(** A computation: from the environment, the depth of [try] blocks around
    it and the world, a new world and a completion. *)
Definition Action (A : Type) : Type :=
  Environment -> nat -> World -> World * Completion A.

Definition ret {A} (a : A) : Action A := fun _ _ w => (w, Return a).

Definition throw {A} (e : Thrown) : Action A := fun _ _ w => (w, Throw e).

Definition bind {A B} (m : Action A) (k : A -> Action B) : Action B :=
  fun env depth w =>
    match m env depth w with
    | (w', Return a) => k a env depth w'
    | (w', Throw e) => (w', Throw e)
    end.

(** [try { body } catch (error) { handler }] *)
Definition try_catch {A} (body : Action A) (handler : Thrown -> Action A) : Action A :=
  fun env depth w =>
    match body env (S depth) w with
    | (w', Return a) => (w', Return a)
    | (w', Throw e) => handler e env depth w'
    end.

Definition record (w : World) (depth : nat) (e : Effect) : World :=
  {| invoices := invoices w;
     events := events w ++ [{| scope := depth; effect := e |}] |}.

(** The table after a statement the store accepted: an insert adds one
    row under the store's identifier, an update overwrites three columns
    of the rows of that identifier, a delete removes them. *)
Definition execute (statement : Statement) (new_id : string)
    (rows : list InvoiceRow) : list InvoiceRow :=
  match statement with
  | INSERT_INTO_invoices c a s d =>
      rows ++ [{| id := new_id; customer_id := c; amount := a; status := s; date := d |}]
  | UPDATE_invoices c a s i =>
      map (fun r =>
             if String.eqb (id r) i
             then {| id := id r; customer_id := c; amount := a; status := s;
                     date := date r |}
             else r)
          rows
  | DELETE_FROM_invoices i =>
      List.filter (fun r => negb (String.eqb (id r) i)) rows
  end.

(** [await sql`...`]: one statement, all or nothing. *)
Definition sql (statement : Statement) : Action unit :=
  fun env depth w =>
    if store_rejects env
    then (record w depth (StoreFailure statement), Throw StoreError)
    else
      (record
         {| invoices := execute statement (generated_id env) (invoices w);
            events := events w |}
         depth (StoreWrite statement),
       Return tt).

(** [revalidatePath(p)] *)
Definition revalidatePath (p : string) : Action unit :=
  fun env depth w =>
    if revalidate_fails env
    then (record w depth (RevalidateFailure p), Throw RevalidateError)
    else (record w depth (RevalidatePath p), Return tt).

(** [redirect(url)]: never returns, throws the signal. *)
Definition redirect {A} (url : string) : Action A :=
  fun env depth w => (record w depth (Redirect url), Throw (NEXT_REDIRECT url)).

(** [new Date()]: the clock's reading. *)
Definition new_Date : Action Z := fun env _ w => (w, Return (clock env)).

End Runtime.

Export Runtime.

#[export] Instance Action_ret : MRet Action := @ret.
#[export] Instance Action_bind : MBind Action := fun A B k m => bind m k.

(** ** The actions *)

Module Actions.

Definition FormSchema : ZodObject :=
  [ ("id", z_string no_params);
    ("customerId",
      z_string {| invalid_type_error := Some "Please select a customer.";
                  required_error := None |});
    ("amount",
      gt z_coerce_number pos_zero "Please enter an amount greater than $0.");
    ("status",
      z_enum ["pending"; "paid"]
        {| invalid_type_error := Some "Please select an invoice status.";
           required_error := None |});
    ("date", z_string no_params) ].

Definition CreateInvoice : ZodObject := omit ["id"; "date"] FormSchema.
Definition UpdateInvoice : ZodObject := omit ["id"; "date"] FormSchema.

Record State := {
  errors : option (gmap string (list string));
  message : option string
}.

(** [schema.parse(data)]: throws the validation error. *)
Definition parse (schema : ZodObject) (data : JSObject) : Action JSObject :=
  match safeParse schema data with
  | SafeParseSuccess o => ret o
  | SafeParseError error => throw (ThrownZodError error)
  end.

(** [a * b] *)
Definition times (a b : JSValue) : JSValue := VNumber (mul (Number a) (Number b)).

(** [array[0]] of an array of strings *)
Definition first (l : list string) : JSValue :=
  match l with
  | x :: _ => VString x
  | [] => VUndefined
  end.

Definition createInvoice (prevState : State) (formData : FormData) : Action State :=
  let validatedFields :=
    safeParse CreateInvoice
      [ ("customerId", get formData "customerId");
        ("amount", get formData "amount");
        ("status", get formData "status") ] in
  match validatedFields with
  | SafeParseError error =>
      ret {| errors := Some (fieldErrors error);
             message := Some "Missing Fields. Failed to Create Invoice." |}
  | SafeParseSuccess data =>
      let customerId := prop data "customerId" in
      let amount := prop data "amount" in
      let status := prop data "status" in
      let amountInCents := times amount (VNumber (of_Z 100)) in
      now ← new_Date;
      let date := first (split "T"%char (toISOString now)) in
      returned ←
        try_catch
          (sql (INSERT_INTO_invoices customerId amountInCents status date) ;;
           ret None)
          (fun error =>
             ret (Some {| errors := None;
                          message := Some "Database Error: Failed to Create Invoice. " |}));
      match returned with
      | Some result => ret result
      | None =>
          revalidatePath "/dashboard/invoices" ;;
          redirect "/dashboard/invoices"
      end
  end.

Definition updateInvoice (id : string) (formData : FormData) : Action State :=
  data ←
    parse UpdateInvoice
      [ ("customerId", get formData "customerId");
        ("amount", get formData "amount");
        ("status", get formData "status") ];
  let customerId := prop data "customerId" in
  let amount := prop data "amount" in
  let status := prop data "status" in
  let amountInCents := times amount (VNumber (of_Z 100)) in
  returned ←
    try_catch
      (sql (UPDATE_invoices customerId amountInCents status id) ;;
       ret None)
      (fun error =>
         ret (Some {| errors := None;
                      message := Some "Database Error: Failed to Update Invoice." |}));
  match returned with
  | Some result => ret result
  | None =>
      revalidatePath "/dashboard/invoices" ;;
      redirect "/dashboard/invoices"
  end.

Definition deleteInvoice (id : string) : Action State :=
  try_catch
    (sql (DELETE_FROM_invoices id) ;;
     revalidatePath "/dashboard/invoices" ;;
     ret {| errors := None; message := Some "Deleted Invoice." |})
    (fun error =>
       ret {| errors := None;
              message := Some "Database Error: Failed to Delete Invoice." |}).

End Actions.

Export Actions.

(** ** Vocabulary of the specification *)

Module Spec.

(** The constraints of the three submitted fields, on the value the form
    gives: a customer identifier is a string, an amount coerces to a
    number above zero, a status is one of the two enumerated values. *)
Definition customerId_ok (v : JSValue) : bool :=
  match v with VString _ => true | _ => false end.

Definition amount_ok (v : JSValue) : bool := ltb pos_zero (Number v).

Definition status_ok (v : JSValue) : bool :=
  match v with
  | VString s => String.eqb s "pending" || String.eqb s "paid"
  | _ => false
  end.

Definition field_ok (key : string) (formData : FormData) : bool :=
  if String.eqb key "customerId" then customerId_ok (get formData key)
  else if String.eqb key "amount" then amount_ok (get formData key)
  else if String.eqb key "status" then status_ok (get formData key)
  else true.

Definition valid_form (formData : FormData) : bool :=
  customerId_ok (get formData "customerId")
  && amount_ok (get formData "amount")
  && status_ok (get formData "status").

(** The messages of the issues raised on field [key], in order. *)
Definition messages_at (key : string) (error : ZodError) : list string :=
  map Zod.message
    (List.filter
       (fun sub => match path sub with k :: _ => String.eqb k key | [] => false end)
       error).

(** The issues of each field, as the schema's messages describe them. *)
Definition customerId_issues (v : JSValue) : list ZodIssue :=
  if customerId_ok v then []
  else [{| code := invalid_type; path := ["customerId"];
           Zod.message := "Please select a customer." |}].

Definition amount_issues (v : JSValue) : list ZodIssue :=
  if isNaN (Number v) then
    [{| code := invalid_type; path := ["amount"];
        Zod.message := "Expected number, received nan" |}]
  else if leb (Number v) pos_zero then
    [{| code := too_small; path := ["amount"];
        Zod.message := "Please enter an amount greater than $0." |}]
  else [].

Definition status_issues (v : JSValue) : list ZodIssue :=
  match v with
  | VString s =>
      if status_ok v then []
      else [{| code := invalid_enum_value; path := ["status"];
               Zod.message :=
                 "Invalid enum value. Expected 'pending' | 'paid', received '"
                   +:+ s +:+ "'" |}]
  | _ =>
      [{| code := invalid_type; path := ["status"];
          Zod.message := "Please select an invoice status." |}]
  end.

Definition form_issues (formData : FormData) : ZodError :=
  customerId_issues (get formData "customerId")
    ++ amount_issues (get formData "amount")
    ++ status_issues (get formData "status").

(** The object the actions hand to the validator, and the one they get
    back from it. *)
Definition submitted (formData : FormData) : JSObject :=
  [ ("customerId", get formData "customerId");
    ("amount", get formData "amount");
    ("status", get formData "status") ].

Definition validated (formData : FormData) : JSObject :=
  [ ("customerId", get formData "customerId");
    ("amount", VNumber (Number (get formData "amount")));
    ("status", get formData "status") ].

(** The statements the actions send for a form, and the world once the
    store has taken one. *)
Definition insert_statement (formData : FormData) (env : Environment) : Statement :=
  INSERT_INTO_invoices (get formData "customerId")
    (VNumber (mul (Number (get formData "amount")) (of_Z 100)))
    (get formData "status") (VString (iso_date (clock env))).

Definition update_statement (i : string) (formData : FormData) : Statement :=
  UPDATE_invoices (get formData "customerId")
    (VNumber (mul (Number (get formData "amount")) (of_Z 100)))
    (get formData "status") i.

Definition committed (statement : Statement) (env : Environment) (depth : nat)
    (w : World) : World :=
  record
    {| invoices := execute statement (generated_id env) (invoices w);
       events := events w |}
    depth (StoreWrite statement).

Definition is_digit (c : ascii) : bool := (48 <=? charCode c) && (charCode c <=? 57).

(** The form YYYY-MM-DD: ten characters, digits but for the two dashes. *)
Definition is_YYYY_MM_DD (s : string) : bool :=
  match s with
  | String y1 (String y2 (String y3 (String y4 (String "-"
      (String m1 (String m2 (String "-" (String d1 (String d2 EmptyString))))))))) =>
      forallb is_digit [y1; y2; y3; y4; m1; m2; d1; d2]
  | _ => false
  end.

(** [c] occurs in [s]. *)
Fixpoint occurs (c : ascii) (s : string) : bool :=
  match s with
  | EmptyString => false
  | String a s' => Ascii.eqb a c || occurs c s'
  end.

(** An entry of the error mapping: absent for no message. *)
Definition listed (l : list string) : option (list string) :=
  match l with [] => None | _ => Some l end.

(** [result.errors?.[key]] of what a call returned. *)
Definition errors_at (key : string) (result : World * Completion State)
    : option (list string) :=
  match snd result with
  | Return st =>
      match errors st with
      | Some errs => errs !! key
      | None => None
      end
  | Throw _ => None
  end.

(** The effects of a call: the events the world gained. *)
Definition is_store_write (e : Event) : bool :=
  match effect e with StoreWrite _ => true | _ => false end.

Definition is_redirect (e : Event) : bool :=
  match effect e with Redirect _ => true | _ => false end.

Definition is_revalidation (e : Event) : bool :=
  match effect e with RevalidatePath _ => true | _ => false end.

(** The discipline of the redirect in a call started at [depth] in world
    [w]: each redirect signal among the events of the call was raised
    outside every [try] block of the action, after a statement the store
    accepted inside the [try] block and no statement it rejected, and the
    signal is what the call completes with (nothing caught it). *)
Definition redirect_discipline (depth : nat) (w : World)
    (result : World * Completion State) : Prop :=
  exists evs,
    events (fst result) = events w ++ evs
    /\ forall pre e post url,
         evs = pre ++ e :: post ->
         effect e = Redirect url ->
         scope e = depth
         /\ (exists written,
               In {| scope := S depth; effect := StoreWrite written |} pre)
         /\ (forall sc failed,
               ~ In {| scope := sc; effect := StoreFailure failed |} pre)
         /\ snd result = Throw (NEXT_REDIRECT url).

(** The row an update writes over [r]. *)
Definition updated_row (c a s : JSValue) (r : InvoiceRow) : InvoiceRow :=
  {| id := id r; customer_id := c; amount := a; status := s; date := date r |}.

End Spec.

Export Spec.

(** ** Sample calls *)

Module Scenario.

Definition no_state : State := {| errors := None; message := None |}.

Definition empty_world : World := {| invoices := []; events := [] |}.

(** A table of two invoices. *)
Definition two_invoices : World :=
  {| invoices :=
       [ {| id := "inv-1"; customer_id := VString "c1"; amount := VNumber (of_Z 500);
            status := VString "pending"; date := VString "2024-01-15" |};
         {| id := "inv-2"; customer_id := VString "c2"; amount := VNumber (of_Z 1250);
            status := VString "paid"; date := VString "2024-02-29" |} ];
     events := [] |}.

(** The collaborators all answer; the clock reads 2026-11-06T21:20:00.123Z. *)
Definition all_well : Environment :=
  {| clock := 1794000000123; store_rejects := false; generated_id := "inv-3";
     revalidate_fails := false |}.

Definition store_down : Environment :=
  {| clock := 1794000000123; store_rejects := true; generated_id := "inv-3";
     revalidate_fails := false |}.

Definition cache_down : Environment :=
  {| clock := 1794000000123; store_rejects := false; generated_id := "inv-3";
     revalidate_fails := true |}.

(** A form with the three fields filled in as text. *)
Definition form (customerId amount status : string) : FormData :=
  [ ("customerId", EntryString customerId);
    ("amount", EntryString amount);
    ("status", EntryString status) ].

End Scenario.

Export Scenario.

(** ** The authorization callback

    The configuration of the authentication middleware: the sign-in page
    and the [authorized] callback, which is given the session and the URL
    of the request and answers with a verdict or a redirect response. *)

Module AuthConfig.

(** A URL: its origin (scheme, host and port), path, query and fragment. *)
Record URL := {
  origin : string;
  pathname : string;
  search : string;
  hash : string
}.

(** [new URL(path, base)] for a [path] that is an absolute path (one
    leading slash, no dot segment, no query, no fragment), as the callback
    writes it: the origin of the base with that path. *)
Definition new_URL (path : string) (base : URL) : URL :=
  {| origin := origin base; pathname := path; search := ""; hash := "" |}.

Record User := { name : option string; email : option string }.

(** The session: [auth] is [null] without one, and its [user] may be
    absent. *)
Record Session := { user : option User }.

(** What the callback returns: a boolean, or the response
    [Response.redirect(url)]. *)
Inductive AuthorizedResult :=
| Verdict (allowed : bool)
| ResponseRedirect (url : URL).

(** [pages.signIn] *)
Definition signIn : string := "/login".

(** [!!auth?.user] *)
Definition isLoggedIn (auth : option Session) : bool :=
  match auth with
  | Some session =>
      match user session with
      | Some _ => true
      | None => false
      end
  | None => false
  end.

Definition authorized (auth : option Session) (nextUrl : URL) : AuthorizedResult :=
  let isLoggedIn := isLoggedIn auth in
  let isOnDashboard := startsWith (pathname nextUrl) "/dashboard" in
  if isOnDashboard then Verdict isLoggedIn
  else if isLoggedIn then ResponseRedirect (new_URL "/dashboard" nextUrl)
  else Verdict true.

End AuthConfig.

(** ** The earlier create action

    The first version of [createInvoice]: a schema without messages and
    without the lower bound on the amount, a parse that throws, and a
    store call outside any [try] block. *)

Module EarlierActions.

Definition FormSchema : ZodObject :=
  [ ("id", z_string no_params);
    ("customerId", z_string no_params);
    ("amount", z_coerce_number);
    ("status", z_enum ["pending"; "paid"] no_params);
    ("date", z_string no_params) ].

Definition CreateInvoice : ZodObject := omit ["id"; "date"] FormSchema.

Definition createInvoice (formData : FormData) : Action unit :=
  data ←
    parse CreateInvoice
      [ ("customerId", get formData "customerId");
        ("amount", get formData "amount");
        ("status", get formData "status") ];
  let customerId := prop data "customerId" in
  let amount := prop data "amount" in
  let status := prop data "status" in
  let amountInCents := times amount (VNumber (of_Z 100)) in
  now ← new_Date;
  let date := first (split "T"%char (toISOString now)) in
  sql (INSERT_INTO_invoices customerId amountInCents status date) ;;
  revalidatePath "/dashboard/invoices" ;;
  redirect "/dashboard/invoices".

(** The forms the earlier schema accepts: a string for the customer, an
    amount that coerces to a number (of any sign), an enumerated status. *)
Definition accepts (formData : FormData) : bool :=
  customerId_ok (get formData "customerId")
  && negb (isNaN (Number (get formData "amount")))
  && status_ok (get formData "status").

(** The issues it raises, with the library's messages. *)
Definition issues (formData : FormData) : ZodError :=
  (match get formData "customerId" with
   | VString _ => []
   | v => [{| code := invalid_type; path := ["customerId"];
              Zod.message := default_invalid_type "string" (getParsedType v) |}]
   end)
  ++ (if isNaN (Number (get formData "amount")) then
        [{| code := invalid_type; path := ["amount"];
            Zod.message := "Expected number, received nan" |}]
      else [])
  ++ (match get formData "status" with
      | VString s =>
          if status_ok (VString s) then []
          else [{| code := invalid_enum_value; path := ["status"];
                   Zod.message :=
                     "Invalid enum value. Expected 'pending' | 'paid', received '"
                       +:+ s +:+ "'" |}]
      | v => [{| code := invalid_type; path := ["status"];
                 Zod.message :=
                   default_invalid_type "'pending' | 'paid'" (getParsedType v) |}]
      end).

End EarlierActions.

(** ** More vocabulary *)

Module Frame.

(** The row [updateInvoice] writes for identifier [i] over the rows of
    that identifier, others untouched. *)
Definition rewrite_row (i : string) (c a s : JSValue) (r : InvoiceRow) : InvoiceRow :=
  if String.eqb (id r) i then updated_row c a s r else r.

(** The rows of other identifiers than [i]. *)
Definition others (i : string) (rows : list InvoiceRow) : list InvoiceRow :=
  List.filter (fun r => negb (String.eqb (id r) i)) rows.

(** The amount column the current version would write for a form. *)
Definition cents (formData : FormData) : JSValue :=
  VNumber (mul (Number (get formData "amount")) (of_Z 100)).

(** The row [createInvoice] adds for a form in an environment. *)
Definition new_row (formData : FormData) (env : Environment) : InvoiceRow :=
  {| id := generated_id env;
     customer_id := get formData "customerId";
     amount := cents formData;
     status := get formData "status";
     date := VString (iso_date (clock env)) |}.

End Frame.

Export Frame.

(** ** Proof steps *)

(** Membership of an issue in a list written out. *)
Ltac issue_in_list H :=
  simpl in H;
  repeat (destruct H as [<- | H]; [reflexivity |]);
  destruct H.

(** The three values a form can give for a name. *)
Ltac form_value_of get_cases formData key :=
  let s := fresh "s" in
  let f := fresh "f" in
  destruct (get_cases formData key) as [-> | [[s ->] | [f ->]]].

(** The combinators of [Action] unfolded. *)
Ltac run_action :=
  unfold mbind, mret, Action_bind, Action_ret, bind, ret, throw, try_catch, sql,
    revalidatePath, redirect, new_Date, committed.

(** * Properties *)

(** ** Strings and numbers read from them *)

Lemma strip_prefix_length (w s r : string) :
  strip_prefix w s = Some r ->
  String.length s = (String.length w + String.length r)%nat.
Proof.
  revert s. induction w as [| a w IH]; intros s H; simpl in *.
  - now injection H as ->.
  - destruct s as [| b s]; [discriminate H |].
    destruct (Ascii.eqb a b); [| discriminate H].
    simpl. f_equal. now apply IH.
Qed.

Lemma strip_one_shorter (ws : list string) (s r : string) :
  Forall (fun w => w <> "") ws ->
  strip_one ws s = Some r ->
  (String.length r < String.length s)%nat.
Proof.
  intros Hne. induction Hne as [| w ws Hw _ IH]; simpl; [discriminate |].
  destruct (strip_prefix w s) as [r' |] eqn:E; [| exact IH].
  intros H. injection H as ->. apply strip_prefix_length in E.
  destruct w; [contradiction | simpl in E; lia].
Qed.

(** The fuel of [trim_start] is enough: what it returns starts with no
    white space. *)
Lemma trim_start_fuel_done (ws : list string) (n : nat) (s : string) :
  Forall (fun w => w <> "") ws ->
  (String.length s <= n)%nat ->
  strip_one ws (trim_start_fuel ws n s) = None.
Proof.
  intros Hne. revert s. induction n as [| n IH]; intros s Hn; simpl.
  - destruct (strip_one ws s) as [r |] eqn:E; [| reflexivity].
    apply strip_one_shorter in E; [lia | exact Hne].
  - destruct (strip_one ws s) as [r |] eqn:E; [| exact E].
    apply IH. apply strip_one_shorter in E; [lia | exact Hne].
Qed.

Lemma StrWhiteSpaceChar_nonempty : Forall (fun w => w <> "") StrWhiteSpaceChar.
Proof.
  unfold StrWhiteSpaceChar. simpl.
  repeat (constructor; [discriminate |]). constructor.
Qed.

Lemma trim_start_done (s : string) :
  strip_one StrWhiteSpaceChar (trim_start StrWhiteSpaceChar s) = None.
Proof.
  apply trim_start_fuel_done; [apply StrWhiteSpaceChar_nonempty | lia].
Qed.

(** The conversion on sample texts: 10.125, 19.99, the empty string, 12
    between spaces, text that is no number, -0, 0x1F, 1e3, -Infinity, .5,
    a lone point, and 12px. *)
Example StringToNumber_samples :
  map StringToNumber
    ["10.125"; "19.99"; ""; "  12 "; "abc"; "-0"; "0x1F"; "1e3"; "-Infinity";
     ".5"; "."; "12px"]
  = [S754_finite false 5699868278390784 (-49);
     S754_finite false 5626684784446013 (-48);
     S754_zero false;
     S754_finite false 6755399441055744 (-49);
     S754_nan;
     S754_zero true;
     S754_finite false 8725724278030336 (-48);
     S754_finite false 8796093022208000 (-43);
     S754_infinity true;
     S754_finite false 4503599627370496 (-53);
     S754_nan;
     S754_nan].
Proof. vm_compute. reflexivity. Qed.

(** A hundred times 20, 10.125, 19.99 and 1.1: 2000, 1012.5,
    1998.9999999999998 and 110.00000000000001. *)
Example times_100_samples :
  map (fun s => times (VString s) (VNumber (of_Z 100))) ["20"; "10.125"; "19.99"; "1.1"]
  = [VNumber (of_Z 2000);
     VNumber (S754_finite false 8906044184985600 (-43));
     VNumber (S754_finite false 8791694975696895 (-42));
     VNumber (S754_finite false 7740561859543041 (-46))].
Proof. vm_compute. reflexivity. Qed.

Example isInteger_samples :
  map isInteger
    [of_Z 2000; S754_finite false 8906044184985600 (-43);
     S754_finite false 8791694975696895 (-42); Infinity; NaN; neg_zero]
  = [true; false; false; false; false; true].
Proof. vm_compute. reflexivity. Qed.

(** [Math.round] on 1998.9999999999998, 1012.5, 0.5, -0.5 and -1012.5:
    1999, 1013, 1, -0 and -1012. *)
Example Math_round_samples :
  map Math_round
    [S754_finite false 8791694975696895 (-42);
     S754_finite false 8906044184985600 (-43);
     S754_finite false 4503599627370496 (-53);
     S754_finite true 4503599627370496 (-53);
     S754_finite true 8906044184985600 (-43)]
  = [of_Z 1999; of_Z 1013; of_Z 1; neg_zero; of_Z (-1012)].
Proof. vm_compute. reflexivity. Qed.

(** The ISO strings of the epoch, of the sample clock, of the millisecond
    before the epoch, of a leap day, and of the last millisecond of year
    9999 and the one after it. *)
Example toISOString_samples :
  map toISOString
    [0; 1794000000123; -1; 951782400000; 253402300799999; 253402300800000]
  = ["1970-01-01T00:00:00.000Z"; "2026-11-06T21:20:00.123Z";
     "1969-12-31T23:59:59.999Z"; "2000-02-29T00:00:00.000Z";
     "9999-12-31T23:59:59.999Z"; "+010000-01-01T00:00:00.000Z"].
Proof. vm_compute. reflexivity. Qed.

(** ** Form data *)

Lemma get_cases (formData : FormData) (name : string) :
  get formData name = VNull
  \/ (exists s, get formData name = VString s)
  \/ (exists f, get formData name = VFile f).
Proof.
  induction formData as [| [k e] rest IH]; simpl.
  - now left.
  - destruct (String.eqb k name); [| exact IH].
    destruct e; simpl; eauto.
Qed.

Lemma get_absent (formData : FormData) (name : string) :
  ~ In name (map fst formData) -> get formData name = VNull.
Proof.
  induction formData as [| [k e] rest IH]; simpl; intros Hn.
  - reflexivity.
  - destruct (String.eqb_spec k name) as [-> | Hne].
    + exfalso. apply Hn. now left.
    + apply IH. intros Hin. apply Hn. now right.
Qed.

(** ** The validator *)

Lemma run_checks_path (checks : list ZodNumberCheck) (p : list string) (n : float)
    (sub : ZodIssue) :
  In sub (run_checks checks p n) -> path sub = p.
Proof.
  unfold run_checks. intros Hi. apply in_flat_map in Hi.
  destruct Hi as [c [_ Hi]]. destruct (tooSmall c n); issue_in_list Hi.
Qed.

(** Every issue a parser raises carries the path it was given. *)
Lemma _parse_path (schema : ZodType) (p : list string) (data : JSValue) (sub : ZodIssue) :
  In sub (fst (_parse schema p data)) -> path sub = p.
Proof.
  destruct schema as [params | coerce checks params | values params]; simpl.
  - destruct data; intros H; issue_in_list H.
  - set (d := if coerce then VNumber (Number data) else data).
    destruct d as [| | s | n | f]; try (intros H; issue_in_list H).
    destruct (isNaN n); [intros H; issue_in_list H |].
    destruct (run_checks checks p n) eqn:E; [intros H; issue_in_list H |].
    rewrite <- E. apply run_checks_path.
  - destruct data as [| | s | n | f]; try (intros H; issue_in_list H).
    destruct (existsb (String.eqb s) values); intros H; issue_in_list H.
Qed.

Lemma fieldErrors_fold (error : ZodError) (acc : gmap string (list string)) (key : string) :
  fold_left
    (fun acc sub =>
       match path sub with
       | [] => acc
       | k :: _ => <[k := default [] (acc !! k) ++ [Zod.message sub]]> acc
       end)
    error acc !! key
  = match messages_at key error with
    | [] => acc !! key
    | l => Some (default [] (acc !! key) ++ l)
    end.
Proof.
  revert acc. induction error as [| sub error IH]; intros acc; simpl.
  - reflexivity.
  - rewrite IH. unfold messages_at. simpl.
    destruct (path sub) as [| k ks] eqn:Hp.
    + reflexivity.
    + destruct (String.eqb_spec k key) as [-> | Hne]; simpl.
      * rewrite lookup_insert_eq. simpl.
        destruct (map Zod.message (List.filter _ error)) as [| m l].
        -- reflexivity.
        -- now rewrite <- app_assoc.
      * rewrite lookup_insert_ne by exact Hne. reflexivity.
Qed.

(** [flatten] gives a field the messages of its issues, and no entry to a
    field without issue. *)
Lemma fieldErrors_lookup (error : ZodError) (key : string) :
  fieldErrors error !! key
  = match messages_at key error with [] => None | l => Some l end.
Proof.
  unfold fieldErrors. rewrite fieldErrors_fold. rewrite lookup_empty. reflexivity.
Qed.

(** ** Numbers *)

Lemma amount_ok_true (v : JSValue) :
  amount_ok v = true -> isNaN (Number v) = false /\ leb (Number v) pos_zero = false.
Proof.
  unfold amount_ok. destruct (Number v) as [s | s | | s m e]; simpl;
    try destruct s; simpl; intros H; try discriminate H; split; reflexivity.
Qed.

Lemma amount_ok_false (v : JSValue) :
  amount_ok v = false -> isNaN (Number v) = true \/ leb (Number v) pos_zero = true.
Proof.
  unfold amount_ok. destruct (Number v) as [s | s | | s m e]; simpl;
    try destruct s; simpl; intros H; try discriminate H; auto.
Qed.

Lemma not_positive_not_ok (v : JSValue) :
  leb (Number v) pos_zero = true -> amount_ok v = false /\ isNaN (Number v) = false.
Proof.
  unfold amount_ok. destruct (Number v) as [s | s | | s m e]; simpl;
    try destruct s; simpl; intros H; try discriminate H; split; reflexivity.
Qed.

(** ** What the validator does on a submitted form *)

Lemma safeParse_CreateInvoice (formData : FormData) :
  safeParse CreateInvoice (submitted formData)
  = if valid_form formData then SafeParseSuccess (validated formData)
    else SafeParseError (form_issues formData).
Proof.
  unfold valid_form, form_issues, validated, submitted, amount_issues, amount_ok.
  unfold safeParse, parse_object.
  let c := eval vm_compute in CreateInvoice in change CreateInvoice with c.
  cbn [parse_shape prop String.eqb Ascii.eqb Bool.eqb _parse fst snd].
  generalize (Number (get formData "amount")) as n. intros n.
  form_value_of get_cases formData "customerId";
    form_value_of get_cases formData "status";
    destruct n as [sg | sg | | sg m e]; try destruct sg;
    cbn; try reflexivity;
    destruct (String.eqb _ "pending"); destruct (String.eqb _ "paid"); reflexivity.
Qed.

(** ** Dates *)

Lemma DayFromYear_step (y : Z) : DayFromYear (y + 1) = DayFromYear y + DaysInYear y.
Proof.
  unfold DayFromYear, DaysInYear.
  destruct (Z.eqb_spec (y mod 4) 0), (Z.eqb_spec (y mod 100) 0),
    (Z.eqb_spec (y mod 400) 0); simpl; Z.div_mod_to_equations; lia.
Qed.

(** The year computed is the largest one that starts at or before [t]. *)
Lemma YearFromTime_spec (t : Z) :
  TimeFromYear (YearFromTime t) <= t < TimeFromYear (YearFromTime t + 1).
Proof.
  assert (Hd : DayFromYear (YearFromTime t) <= Day t < DayFromYear (YearFromTime t + 1)).
  { unfold YearFromTime.
    set (d := Day t). set (y0 := 1970 + 400 * d / 146097).
    assert (Hlo : DayFromYear (y0 - 1) <= d).
    { unfold DayFromYear, y0. Z.div_mod_to_equations. lia. }
    assert (Hhi : d < DayFromYear (y0 + 2)).
    { unfold DayFromYear, y0. Z.div_mod_to_equations. lia. }
    destruct (Z.leb_spec (DayFromYear (y0 + 1)) d).
    - replace (y0 + 1 + 1) with (y0 + 2) by lia. lia.
    - destruct (Z.leb_spec (DayFromYear y0) d).
      + lia.
      + replace (y0 - 1 + 1) with y0 by lia. lia. }
  unfold TimeFromYear, Day, msPerDay in *. Z.div_mod_to_equations. lia.
Qed.

Lemma DayFromYear_mono (a b : Z) : a <= b -> DayFromYear a <= DayFromYear b.
Proof.
  intros H. unfold DayFromYear. Z.div_mod_to_equations. lia.
Qed.

Lemma YearFromTime_largest (t y : Z) : TimeFromYear y <= t -> y <= YearFromTime t.
Proof.
  intros H. destruct (YearFromTime_spec t) as [_ Hlt].
  destruct (Z_le_gt_dec y (YearFromTime t)) as [Hle | Hgt]; [exact Hle | exfalso].
  assert (Hm : DayFromYear (YearFromTime t + 1) <= DayFromYear y)
    by (apply DayFromYear_mono; lia).
  unfold TimeFromYear, msPerDay in *. lia.
Qed.

Lemma DayWithinYear_range (t : Z) :
  0 <= DayWithinYear t < DaysInYear (YearFromTime t).
Proof.
  pose proof (YearFromTime_spec t) as H.
  unfold TimeFromYear in H. rewrite DayFromYear_step in H.
  unfold DayWithinYear, Day, msPerDay in *.
  Z.div_mod_to_equations. lia.
Qed.

Lemma DaysInYear_cases (y : Z) : DaysInYear y = 365 \/ DaysInYear y = 366.
Proof.
  unfold DaysInYear.
  destruct (y mod 4 =? 0), (y mod 100 =? 0), (y mod 400 =? 0); simpl; auto.
Qed.

Lemma InLeapYear_days (t : Z) : DaysInYear (YearFromTime t) = 365 + InLeapYear t.
Proof.
  unfold InLeapYear. destruct (DaysInYear_cases (YearFromTime t)) as [-> | ->]; reflexivity.
Qed.

Lemma MonthFromTime_range (t : Z) : 0 <= MonthFromTime t <= 11.
Proof.
  unfold MonthFromTime.
  repeat match goal with |- context [if ?c then _ else _] => destruct c end; lia.
Qed.

Lemma DateFromTime_range (t : Z) : 1 <= DateFromTime t <= 31.
Proof.
  pose proof (DayWithinYear_range t) as Hd.
  rewrite InLeapYear_days in Hd.
  assert (Hl : InLeapYear t = 0 \/ InLeapYear t = 1)
    by (unfold InLeapYear; destruct (_ =? _); auto).
  unfold DateFromTime, MonthFromTime.
  set (d := DayWithinYear t) in *. set (l := InLeapYear t) in *.
  repeat match goal with
         | |- context [if ?a <? ?b then _ else _] => destruct (Z.ltb_spec a b)
         end; simpl; lia.
Qed.

(** A clock between the first millisecond of year 0 and the last of year
    9999 reads a year of four digits. *)
Lemma YearFromTime_range (t : Z) :
  -62167219200000 <= t <= 253402300799999 -> 0 <= YearFromTime t <= 9999.
Proof.
  intros [Hlo Hhi]. split.
  - apply YearFromTime_largest.
    change (TimeFromYear 0) with (-62167219200000). lia.
  - destruct (YearFromTime_spec t) as [Hle _].
    destruct (Z_le_gt_dec (YearFromTime t) 9999) as [H | H]; [exact H | exfalso].
    assert (Hm : DayFromYear 10000 <= DayFromYear (YearFromTime t))
      by (apply DayFromYear_mono; lia).
    change (DayFromYear 10000) with 2932897 in Hm.
    unfold TimeFromYear, msPerDay in Hle. lia.
Qed.

(** ** The ISO format and its date part *)

Lemma digit_char_cases (n : Z) :
  In (digit_char (n mod 10)) ["0"; "1"; "2"; "3"; "4"; "5"; "6"; "7"; "8"; "9"]%char.
Proof.
  assert (H : 0 <= n mod 10 < 10) by (apply Z.mod_pos_bound; lia).
  assert (Hc : n mod 10 = 0 \/ n mod 10 = 1 \/ n mod 10 = 2 \/ n mod 10 = 3
               \/ n mod 10 = 4 \/ n mod 10 = 5 \/ n mod 10 = 6 \/ n mod 10 = 7
               \/ n mod 10 = 8 \/ n mod 10 = 9) by lia.
  simpl. repeat (destruct Hc as [-> | Hc]; [tauto |]). rewrite Hc. tauto.
Qed.

Lemma digit_char_is_digit (n : Z) : is_digit (digit_char (n mod 10)) = true.
Proof.
  pose proof (digit_char_cases n) as H. simpl in H.
  repeat (destruct H as [<- | H]; [reflexivity |]). destruct H.
Qed.

Lemma digit_char_not_T (n : Z) : Ascii.eqb (digit_char (n mod 10)) "T" = false.
Proof.
  pose proof (digit_char_cases n) as H. simpl in H.
  repeat (destruct H as [<- | H]; [reflexivity |]). destruct H.
Qed.

Lemma occurs_app (c : ascii) (a b : string) :
  occurs c (a +:+ b) = occurs c a || occurs c b.
Proof.
  induction a as [| x a IH]; simpl; [reflexivity |].
  rewrite IH. now rewrite orb_assoc.
Qed.

Lemma occurs_fixed_digits (w : nat) (n : Z) (acc : string) :
  occurs "T" (fixed_digits w n acc) = occurs "T" acc.
Proof.
  revert n acc. induction w as [| w IH]; intros n acc; simpl; [reflexivity |].
  rewrite IH. simpl. now rewrite digit_char_not_T.
Qed.

Lemma occurs_year_string (y : Z) : occurs "T" (year_string y) = false.
Proof.
  unfold year_string, pad.
  destruct ((0 <=? y) && (y <=? 9999)).
  - now rewrite occurs_fixed_digits.
  - rewrite occurs_app, occurs_fixed_digits. now destruct (y <? 0).
Qed.

Lemma occurs_iso_date (t : Z) : occurs "T" (iso_date t) = false.
Proof.
  unfold iso_date, pad.
  rewrite !occurs_app, !occurs_fixed_digits, occurs_year_string. reflexivity.
Qed.

Lemma split_aux_first (sep : ascii) (a b cur : string) :
  occurs sep a = false ->
  split_aux sep cur (a +:+ String sep b) = rev_string a cur :: split_aux sep "" b.
Proof.
  revert cur. induction a as [| c a IH]; intros cur H; simpl in *.
  - now rewrite Ascii.eqb_refl.
  - apply orb_false_iff in H. destruct H as [Hc Ha].
    rewrite Hc. now rewrite IH.
Qed.

(** The first piece of the ISO string split at [T] is its date part. *)
Lemma toISOString_date (t : Z) :
  first (split "T" (toISOString t)) = VString (iso_date t).
Proof.
  unfold toISOString, split.
  change ("T" +:+ iso_time t +:+ "Z") with (String "T" (iso_time t +:+ "Z")).
  rewrite split_aux_first by apply occurs_iso_date.
  reflexivity.
Qed.

(** From year 0 to year 9999 the date part has the form YYYY-MM-DD. *)
Lemma iso_date_form (t : Z) :
  0 <= YearFromTime t <= 9999 -> is_YYYY_MM_DD (iso_date t) = true.
Proof.
  intros [H0 H9]. unfold iso_date, year_string.
  replace ((0 <=? YearFromTime t) && (YearFromTime t <=? 9999)) with true
    by (symmetry; apply andb_true_iff; split; apply Z.leb_le; lia).
  cbv [pad fixed_digits String.append is_YYYY_MM_DD forallb].
  rewrite !digit_char_is_digit. reflexivity.
Qed.

(** ** Rounding keeps the sign *)

Lemma shr_1_nonneg (mrs : shr_record) : 0 <= shr_m mrs -> 0 <= shr_m (shr_1 mrs).
Proof.
  destruct mrs as [m r s]; simpl. intros H.
  destruct m as [| p | p]; [simpl; lia | | lia].
  destruct p; simpl; lia.
Qed.

Lemma iter_pos_shr_1_nonneg (p : positive) (mrs : shr_record) :
  0 <= shr_m mrs -> 0 <= shr_m (SpecFloat.iter_pos shr_1 p mrs).
Proof.
  revert mrs. induction p as [p IH | p IH |]; intros mrs H; simpl.
  - apply IH, IH, shr_1_nonneg, H.
  - apply IH, IH, H.
  - apply shr_1_nonneg, H.
Qed.

Lemma shr_nonneg (mrs : shr_record) (e n : Z) :
  0 <= shr_m mrs -> 0 <= shr_m (fst (shr mrs e n)).
Proof.
  intros H. destruct n; simpl; try exact H.
  apply iter_pos_shr_1_nonneg, H.
Qed.

Lemma shr_fexp_nonneg (m e : Z) (l : location) :
  0 <= m -> 0 <= shr_m (fst (shr_fexp prec emax m e l)).
Proof.
  intros H. unfold shr_fexp. apply shr_nonneg.
  destruct l as [| []]; simpl; exact H.
Qed.

Lemma round_nearest_even_nonneg (m : Z) (l : location) :
  0 <= m -> 0 <= round_nearest_even m l.
Proof.
  intros H. destruct l as [| []]; simpl; try lia.
  destruct (Z.even m); lia.
Qed.

(** Rounding a non-negative mantissa gives a zero, a finite number or an
    infinity of the sign asked for, never [NaN]. *)
Lemma binary_round_aux_sign (sx : bool) (mx ex : Z) (lx : location) :
  0 <= mx ->
  match binary_round_aux prec emax sx mx ex lx with
  | S754_nan => False
  | S754_zero s | S754_infinity s | S754_finite s _ _ => s = sx
  end.
Proof.
  intros H. unfold binary_round_aux.
  pose proof (shr_fexp_nonneg mx ex lx H) as H1.
  destruct (shr_fexp prec emax mx ex lx) as [mrs' e']. simpl in H1.
  pose proof (shr_fexp_nonneg
                (round_nearest_even (shr_m mrs') (loc_of_shr_record mrs')) e' loc_Exact
                (round_nearest_even_nonneg _ _ H1)) as H2.
  destruct (shr_fexp prec emax _ e' loc_Exact) as [mrs'' e'']. simpl in H2.
  destruct (shr_m mrs'') as [| p | p]; [reflexivity | | lia].
  destruct (e'' <=? emax - prec); reflexivity.
Qed.

(** A hundred times a number above zero is a number, and not below zero. *)
Lemma times_100_nonneg (n : float) :
  ltb pos_zero n = true ->
  isNaN (mul n (of_Z 100)) = false /\ leb pos_zero (mul n (of_Z 100)) = true.
Proof.
  intros H.
  change (of_Z 100) with (S754_finite false 7036874417766400 (-46)).
  destruct n as [s | s | | s m e]; try destruct s; try discriminate H.
  - split; reflexivity.
  - unfold mul, SFmul.
    pose proof (binary_round_aux_sign (xorb false false)
                  (Z.pos (m * 7036874417766400)) (e + -46) loc_Exact) as Hs.
    destruct (binary_round_aux prec emax (xorb false false) _ _ loc_Exact)
      as [s | s | | s m' e'].
    + specialize (Hs ltac:(lia)). subst s. split; reflexivity.
    + specialize (Hs ltac:(lia)). subst s. split; reflexivity.
    + destruct Hs. lia.
    + specialize (Hs ltac:(lia)). subst s. split; reflexivity.
Qed.

(** ** The three actions, path by path *)

Lemma createInvoice_behaviour (prevState : State) (formData : FormData)
    (env : Environment) (depth : nat) (w : World) :
  createInvoice prevState formData env depth w
  = if valid_form formData then
      let statement := insert_statement formData env in
      if store_rejects env then
        (record w (S depth) (StoreFailure statement),
         Return {| errors := None;
                   message := Some "Database Error: Failed to Create Invoice. " |})
      else
        let w1 := committed statement env (S depth) w in
        if revalidate_fails env then
          (record w1 depth (RevalidateFailure "/dashboard/invoices"),
           Throw RevalidateError)
        else
          (record (record w1 depth (RevalidatePath "/dashboard/invoices")) depth
             (Redirect "/dashboard/invoices"),
           Throw (NEXT_REDIRECT "/dashboard/invoices"))
    else
      (w, Return {| errors := Some (fieldErrors (form_issues formData));
                    message := Some "Missing Fields. Failed to Create Invoice." |}).
Proof.
  unfold createInvoice. fold (submitted formData).
  rewrite safeParse_CreateInvoice.
  destruct (valid_form formData); [| reflexivity].
  unfold validated, times, insert_statement.
  cbn [prop String.eqb Ascii.eqb Bool.eqb Number].
  run_action. rewrite toISOString_date.
  destruct (store_rejects env); [reflexivity |].
  destruct (revalidate_fails env); reflexivity.
Qed.

Lemma updateInvoice_behaviour (i : string) (formData : FormData)
    (env : Environment) (depth : nat) (w : World) :
  updateInvoice i formData env depth w
  = if valid_form formData then
      let statement := update_statement i formData in
      if store_rejects env then
        (record w (S depth) (StoreFailure statement),
         Return {| errors := None;
                   message := Some "Database Error: Failed to Update Invoice." |})
      else
        let w1 := committed statement env (S depth) w in
        if revalidate_fails env then
          (record w1 depth (RevalidateFailure "/dashboard/invoices"),
           Throw RevalidateError)
        else
          (record (record w1 depth (RevalidatePath "/dashboard/invoices")) depth
             (Redirect "/dashboard/invoices"),
           Throw (NEXT_REDIRECT "/dashboard/invoices"))
    else (w, Throw (ThrownZodError (form_issues formData))).
Proof.
  unfold updateInvoice, parse. fold (submitted formData).
  change UpdateInvoice with CreateInvoice.
  rewrite safeParse_CreateInvoice.
  destruct (valid_form formData); [| reflexivity].
  unfold validated, times, update_statement.
  run_action. cbn [prop String.eqb Ascii.eqb Bool.eqb Number].
  destruct (store_rejects env); [reflexivity |].
  destruct (revalidate_fails env); reflexivity.
Qed.

Lemma deleteInvoice_behaviour (i : string) (env : Environment) (depth : nat) (w : World) :
  deleteInvoice i env depth w
  = let statement := DELETE_FROM_invoices i in
    if store_rejects env then
      (record w (S depth) (StoreFailure statement),
       Return {| errors := None;
                 message := Some "Database Error: Failed to Delete Invoice." |})
    else
      let w1 := committed statement env (S depth) w in
      if revalidate_fails env then
        (record w1 (S depth) (RevalidateFailure "/dashboard/invoices"),
         Return {| errors := None;
                   message := Some "Database Error: Failed to Delete Invoice." |})
      else
        (record w1 (S depth) (RevalidatePath "/dashboard/invoices"),
         Return {| errors := None; message := Some "Deleted Invoice." |}).
Proof.
  unfold deleteInvoice. run_action.
  destruct (store_rejects env); [reflexivity |].
  destruct (revalidate_fails env); reflexivity.
Qed.

(** ** The error mapping of a rejected form *)

Lemma messages_at_app (key : string) (a b : ZodError) :
  messages_at key (a ++ b) = messages_at key a ++ messages_at key b.
Proof.
  unfold messages_at. now rewrite List.filter_app, map_app.
Qed.

Lemma form_errors_customerId (formData : FormData) :
  fieldErrors (form_issues formData) !! "customerId"
  = listed (map Zod.message (customerId_issues (get formData "customerId"))).
Proof.
  rewrite fieldErrors_lookup. unfold form_issues. rewrite !messages_at_app.
  replace (messages_at "customerId" (amount_issues _)) with (@nil string).
  2:{ unfold amount_issues. destruct (isNaN _); [reflexivity |].
      destruct (leb _ _); reflexivity. }
  replace (messages_at "customerId" (status_issues _)) with (@nil string).
  2:{ unfold status_issues. destruct (get formData "status"); try reflexivity.
      destruct (status_ok _); reflexivity. }
  rewrite !app_nil_r. unfold customerId_issues.
  destruct (customerId_ok _); reflexivity.
Qed.

Lemma form_errors_amount (formData : FormData) :
  fieldErrors (form_issues formData) !! "amount"
  = listed (map Zod.message (amount_issues (get formData "amount"))).
Proof.
  rewrite fieldErrors_lookup. unfold form_issues. rewrite !messages_at_app.
  replace (messages_at "amount" (customerId_issues _)) with (@nil string).
  2:{ unfold customerId_issues. destruct (customerId_ok _); reflexivity. }
  replace (messages_at "amount" (status_issues _)) with (@nil string).
  2:{ unfold status_issues. destruct (get formData "status"); try reflexivity.
      destruct (status_ok _); reflexivity. }
  rewrite app_nil_r. simpl. unfold amount_issues.
  destruct (isNaN _); [reflexivity |]. destruct (leb _ _); reflexivity.
Qed.

Lemma form_errors_status (formData : FormData) :
  fieldErrors (form_issues formData) !! "status"
  = listed (map Zod.message (status_issues (get formData "status"))).
Proof.
  rewrite fieldErrors_lookup. unfold form_issues. rewrite !messages_at_app.
  replace (messages_at "status" (customerId_issues _)) with (@nil string).
  2:{ unfold customerId_issues. destruct (customerId_ok _); reflexivity. }
  replace (messages_at "status" (amount_issues _)) with (@nil string).
  2:{ unfold amount_issues. destruct (isNaN _); [reflexivity |].
      destruct (leb _ _); reflexivity. }
  simpl. unfold status_issues.
  destruct (get formData "status"); try reflexivity.
  destruct (status_ok _); reflexivity.
Qed.

(** ** Rejected forms *)

Lemma createInvoice_rejects (prevState : State) (formData : FormData)
    (env : Environment) (depth : nat) (w : World) :
  valid_form formData = false ->
  createInvoice prevState formData env depth w
  = (w, Return {| errors := Some (fieldErrors (form_issues formData));
                  message := Some "Missing Fields. Failed to Create Invoice." |}).
Proof.
  intros H. rewrite createInvoice_behaviour, H. reflexivity.
Qed.

(** C5. Whenever the submitted amount coerces to a number that is at most
    zero, [createInvoice] returns the message "Missing Fields. Failed to
    Create Invoice." with an error mapping whose [amount] entry is the
    list holding "Please enter an amount greater than $0."; the world is
    the one it started from: no store write, no cache invalidation, no
    redirect. *)
Theorem createInvoice_amount_not_positive (prevState : State) (formData : FormData)
    (env : Environment) (depth : nat) (w : World) :
  leb (Number (get formData "amount")) pos_zero = true ->
  exists errs,
    createInvoice prevState formData env depth w
    = (w, Return {| errors := Some errs;
                    message := Some "Missing Fields. Failed to Create Invoice." |})
    /\ errs !! "amount" = Some ["Please enter an amount greater than $0."].
Proof.
  intros H. destruct (not_positive_not_ok _ H) as [Hok Hnan].
  exists (fieldErrors (form_issues formData)). split.
  - apply createInvoice_rejects. unfold valid_form. rewrite Hok.
    now rewrite andb_false_r.
  - rewrite form_errors_amount. unfold amount_issues. now rewrite Hnan, H.
Qed.

Lemma createInvoice_amount_not_positive_witness :
  exists errs,
    createInvoice no_state (form "c1" "-5" "paid") all_well 0%nat two_invoices
    = (two_invoices,
       Return {| errors := Some errs;
                 message := Some "Missing Fields. Failed to Create Invoice." |})
    /\ errs !! "amount" = Some ["Please enter an amount greater than $0."].
Proof.
  apply (createInvoice_amount_not_positive no_state (form "c1" "-5" "paid")
           all_well 0%nat two_invoices).
  vm_compute. reflexivity.
Defined.

Lemma field_error_iff (formData : FormData) (key : string) :
  In key ["customerId"; "amount"; "status"] ->
  field_ok key formData = false
  <-> is_Some (fieldErrors (form_issues formData) !! key).
Proof.
  intros Hk. simpl in Hk.
  destruct Hk as [<- | [<- | [<- | []]]]; unfold field_ok; simpl.
  - rewrite form_errors_customerId. unfold customerId_issues.
    destruct (customerId_ok _); simpl; split; intros H;
      first [discriminate H | reflexivity | solve [eexists; reflexivity] | now destruct H].
  - rewrite form_errors_amount. unfold amount_issues, amount_ok.
    destruct (Number (get formData "amount")) as [s | s | | s m e];
      try destruct s; simpl; split; intros H;
      first [discriminate H | reflexivity | solve [eexists; reflexivity] | now destruct H].
  - rewrite form_errors_status. unfold status_issues.
    destruct (get formData "status") as [| | s | n | f]; simpl;
      try destruct (String.eqb s "pending" || String.eqb s "paid"); simpl;
      split; intros H;
      first [discriminate H | reflexivity | solve [eexists; reflexivity] | now destruct H].
Qed.

(** C6. When the form has no [customerId] entry, [createInvoice] returns
    an error mapping whose [customerId] entry holds "Please select a
    customer." and leaves the world as it was (no store write); and when
    the form breaks the constraints of one or several fields, the error
    mapping returned has an entry for a field exactly when that field's
    constraint is broken, so every violated field is there at once. *)
Theorem createInvoice_missing_customer_all_fields (prevState : State)
    (formData : FormData) (env : Environment) (depth : nat) (w : World) :
  (~ In "customerId" (map fst formData) ->
   exists errs msgs,
     createInvoice prevState formData env depth w
     = (w, Return {| errors := Some errs;
                     message := Some "Missing Fields. Failed to Create Invoice." |})
     /\ errs !! "customerId" = Some msgs
     /\ In "Please select a customer." msgs)
  /\ (valid_form formData = false ->
      exists errs,
        createInvoice prevState formData env depth w
        = (w, Return {| errors := Some errs;
                        message := Some "Missing Fields. Failed to Create Invoice." |})
        /\ forall key, In key ["customerId"; "amount"; "status"] ->
             (field_ok key formData = false <-> is_Some (errs !! key))).
Proof.
  split.
  - intros Habs. apply get_absent in Habs.
    exists (fieldErrors (form_issues formData)), ["Please select a customer."].
    split; [| split].
    + apply createInvoice_rejects. unfold valid_form. now rewrite Habs.
    + rewrite form_errors_customerId, Habs. reflexivity.
    + now left.
  - intros Hinv. exists (fieldErrors (form_issues formData)). split.
    + now apply createInvoice_rejects.
    + intros key Hk. now apply field_error_iff.
Qed.

(** A form without customer, with a negative amount and an unknown status:
    the customer message is there, and the three fields are reported
    together. *)
Lemma createInvoice_missing_customer_all_fields_witness :
  (exists errs msgs,
     createInvoice no_state [("amount", EntryString "-5"); ("status", EntryString "draft")]
       all_well 0%nat two_invoices
     = (two_invoices,
        Return {| errors := Some errs;
                  message := Some "Missing Fields. Failed to Create Invoice." |})
     /\ errs !! "customerId" = Some msgs
     /\ In "Please select a customer." msgs)
  /\ (exists errs,
        createInvoice no_state
          [("amount", EntryString "-5"); ("status", EntryString "draft")]
          all_well 0%nat two_invoices
        = (two_invoices,
           Return {| errors := Some errs;
                     message := Some "Missing Fields. Failed to Create Invoice." |})
        /\ forall key, In key ["customerId"; "amount"; "status"] ->
             (field_ok key [("amount", EntryString "-5"); ("status", EntryString "draft")]
              = false <-> is_Some (errs !! key))).
Proof.
  pose proof (createInvoice_missing_customer_all_fields no_state
                [("amount", EntryString "-5"); ("status", EntryString "draft")]
                all_well 0%nat two_invoices) as [Hmissing Hall].
  split.
  - apply Hmissing. simpl. intros [H | [H | []]]; discriminate H.
  - apply Hall. reflexivity.
Defined.

(** C4, as the code has it. When the submitted status is not one of
    "pending" and "paid", [createInvoice] returns the message "Missing
    Fields. Failed to Create Invoice." and leaves the world as it was (no
    store write); the [status] entry of the error mapping holds "Please
    select an invoice status." when the status is not a string (the form
    has none, or has a file), and the validator's own message "Invalid enum
    value. Expected 'pending' | 'paid', received '...'" when it is a string
    outside the enumeration. *)
Theorem createInvoice_status_not_enumerated (prevState : State) (formData : FormData)
    (env : Environment) (depth : nat) (w : World) :
  status_ok (get formData "status") = false ->
  exists errs,
    createInvoice prevState formData env depth w
    = (w, Return {| errors := Some errs;
                    message := Some "Missing Fields. Failed to Create Invoice." |})
    /\ errs !! "status"
       = Some [match get formData "status" with
               | VString s =>
                   "Invalid enum value. Expected 'pending' | 'paid', received '"
                     +:+ s +:+ "'"
               | _ => "Please select an invoice status."
               end].
Proof.
  intros H. exists (fieldErrors (form_issues formData)). split.
  - apply createInvoice_rejects. unfold valid_form. rewrite H.
    now rewrite andb_false_r.
  - rewrite form_errors_status. unfold status_issues.
    destruct (get formData "status"); try reflexivity. now rewrite H.
Qed.

Lemma createInvoice_status_not_enumerated_witness :
  exists errs,
    createInvoice no_state [("customerId", EntryString "c1"); ("amount", EntryString "20")]
      all_well 0%nat two_invoices
    = (two_invoices,
       Return {| errors := Some errs;
                 message := Some "Missing Fields. Failed to Create Invoice." |})
    /\ errs !! "status" = Some ["Please select an invoice status."].
Proof.
  apply (createInvoice_status_not_enumerated no_state
           [("customerId", EntryString "c1"); ("amount", EntryString "20")]
           all_well 0%nat two_invoices).
  reflexivity.
Defined.

(** C4 as stated fails on a status that is a string outside the
    enumeration: for "draft" the [status] entry is the validator's message
    alone, and "Please select an invoice status." is not in it. *)
Lemma createInvoice_status_draft :
  status_ok (get (form "c1" "20" "draft") "status") = false
  /\ errors_at "status"
       (createInvoice no_state (form "c1" "20" "draft") all_well 0%nat two_invoices)
     = Some ["Invalid enum value. Expected 'pending' | 'paid', received 'draft'"]
  /\ ~ In "Please select an invoice status."
         ["Invalid enum value. Expected 'pending' | 'paid', received 'draft'"].
Proof.
  split; [reflexivity | split].
  - unfold errors_at. rewrite createInvoice_rejects by reflexivity.
    simpl. rewrite form_errors_status. reflexivity.
  - intros [H | []]. discriminate H.
Qed.

(** ** Accepted forms *)

Lemma valid_form_fields (formData : FormData) (customer st : string) :
  get formData "customerId" = VString customer ->
  ltb pos_zero (Number (get formData "amount")) = true ->
  get formData "status" = VString st ->
  st = "pending" \/ st = "paid" ->
  valid_form formData = true.
Proof.
  intros Hc Ha Hs Hst. unfold valid_form, amount_ok. rewrite Hc, Ha, Hs. simpl.
  destruct Hst as [-> | ->]; reflexivity.
Qed.

Lemma createInvoice_succeeds (prevState : State) (formData : FormData)
    (env : Environment) (depth : nat) (w : World) :
  valid_form formData = true ->
  store_rejects env = false ->
  revalidate_fails env = false ->
  createInvoice prevState formData env depth w
  = ({| invoices :=
          invoices w
          ++ [{| id := generated_id env;
                 customer_id := get formData "customerId";
                 amount := VNumber (mul (Number (get formData "amount")) (of_Z 100));
                 status := get formData "status";
                 date := VString (iso_date (clock env)) |}];
        events :=
          events w
          ++ [{| scope := S depth; effect := StoreWrite (insert_statement formData env) |};
              {| scope := depth; effect := RevalidatePath "/dashboard/invoices" |};
              {| scope := depth; effect := Redirect "/dashboard/invoices" |}] |},
     Throw (NEXT_REDIRECT "/dashboard/invoices")).
Proof.
  intros Hv Hs Hr. rewrite createInvoice_behaviour, Hv, Hs, Hr.
  unfold committed, record. simpl. rewrite <- !app_assoc. reflexivity.
Qed.

(** C1, as the code has it. For a form whose [customerId] is a string,
    whose amount coerces to a number above zero and whose status is
    "pending" or "paid", when the store accepts the statement and the cache
    invalidation returns, [createInvoice] adds exactly one row to the
    table, under the store's identifier, with the submitted customer and
    status, with the amount [amount * 100] as the binary64 product (it is
    not rounded to an integer), and with the date part of the clock's ISO
    string; it then invalidates /dashboard/invoices and raises the redirect
    signal to /dashboard/invoices, which reaches the caller. The date has
    the form YYYY-MM-DD whenever the clock's year is between 0 and 9999. *)
Theorem createInvoice_valid_inserts_and_redirects (prevState : State)
    (formData : FormData) (env : Environment) (depth : nat) (w : World)
    (customer st : string) :
  get formData "customerId" = VString customer ->
  ltb pos_zero (Number (get formData "amount")) = true ->
  get formData "status" = VString st ->
  st = "pending" \/ st = "paid" ->
  store_rejects env = false ->
  revalidate_fails env = false ->
  let cents := VNumber (mul (Number (get formData "amount")) (of_Z 100)) in
  let today := VString (iso_date (clock env)) in
  createInvoice prevState formData env depth w
  = ({| invoices :=
          invoices w
          ++ [{| id := generated_id env; customer_id := VString customer;
                 amount := cents; status := VString st; date := today |}];
        events :=
          events w
          ++ [{| scope := S depth;
                 effect := StoreWrite
                             (INSERT_INTO_invoices (VString customer) cents
                                (VString st) today) |};
              {| scope := depth; effect := RevalidatePath "/dashboard/invoices" |};
              {| scope := depth; effect := Redirect "/dashboard/invoices" |}] |},
     Throw (NEXT_REDIRECT "/dashboard/invoices"))
  /\ (0 <= YearFromTime (clock env) <= 9999 ->
      is_YYYY_MM_DD (iso_date (clock env)) = true).
Proof.
  intros Hc Ha Hs Hst Hsr Hrf cents today. split.
  - rewrite createInvoice_succeeds
      by (try assumption; eapply valid_form_fields; eassumption).
    unfold insert_statement. rewrite Hc, Hs. reflexivity.
  - apply iso_date_form.
Qed.

Lemma createInvoice_valid_inserts_and_redirects_witness :
  createInvoice no_state (form "c1" "20" "paid") all_well 0%nat two_invoices
  = ({| invoices :=
          invoices two_invoices
          ++ [{| id := "inv-3"; customer_id := VString "c1";
                 amount := VNumber (of_Z 2000); status := VString "paid";
                 date := VString "2026-11-06" |}];
        events :=
          [{| scope := 1;
              effect := StoreWrite
                          (INSERT_INTO_invoices (VString "c1") (VNumber (of_Z 2000))
                             (VString "paid") (VString "2026-11-06")) |};
           {| scope := 0; effect := RevalidatePath "/dashboard/invoices" |};
           {| scope := 0; effect := Redirect "/dashboard/invoices" |}] |},
     Throw (NEXT_REDIRECT "/dashboard/invoices"))
  /\ is_YYYY_MM_DD "2026-11-06" = true.
Proof.
  pose proof (createInvoice_valid_inserts_and_redirects no_state
                (form "c1" "20" "paid") all_well 0%nat two_invoices "c1" "paid"
                eq_refl eq_refl eq_refl (or_intror eq_refl) eq_refl eq_refl) as H.
  destruct H as [Hrun Hdate]. split.
  - exact Hrun.
  - apply Hdate. vm_compute. split; discriminate.
Defined.

(** C1 as stated fails where [amount * 100] is not an integer: for the
    amount "19.99" the row holds 1998.9999999999998 (the binary64 product),
    while [round(amount * 100)] is 1999. *)
Lemma createInvoice_stores_unrounded_product :
  valid_form (form "c1" "19.99" "paid") = true
  /\ map amount
       (invoices
          (fst (createInvoice no_state (form "c1" "19.99" "paid") all_well 0%nat
                  empty_world)))
     = [VNumber (S754_finite false 8791694975696895 (-42))]
  /\ Math_round (mul (Number (VString "19.99")) (of_Z 100)) = of_Z 1999
  /\ S754_finite false 8791694975696895 (-42) <> of_Z 1999.
Proof.
  split; [reflexivity | split; [| split]].
  - vm_compute. reflexivity.
  - vm_compute. reflexivity.
  - vm_compute. discriminate.
Qed.

Lemma updateInvoice_succeeds (i : string) (formData : FormData)
    (env : Environment) (depth : nat) (w : World) :
  valid_form formData = true ->
  store_rejects env = false ->
  revalidate_fails env = false ->
  updateInvoice i formData env depth w
  = ({| invoices :=
          map (fun r =>
                 if String.eqb (id r) i
                 then updated_row (get formData "customerId")
                        (VNumber (mul (Number (get formData "amount")) (of_Z 100)))
                        (get formData "status") r
                 else r)
              (invoices w);
        events :=
          events w
          ++ [{| scope := S depth; effect := StoreWrite (update_statement i formData) |};
              {| scope := depth; effect := RevalidatePath "/dashboard/invoices" |};
              {| scope := depth; effect := Redirect "/dashboard/invoices" |}] |},
     Throw (NEXT_REDIRECT "/dashboard/invoices")).
Proof.
  intros Hv Hs Hr. rewrite updateInvoice_behaviour, Hv, Hs, Hr.
  unfold committed, record. simpl. rewrite <- !app_assoc. reflexivity.
Qed.

(** The table after a call, whether or not the cache invalidation that
    follows the write goes through. *)
Lemma createInvoice_table (prevState : State) (formData : FormData)
    (env : Environment) (depth : nat) (w : World) :
  valid_form formData = true ->
  store_rejects env = false ->
  invoices (fst (createInvoice prevState formData env depth w))
  = invoices w
    ++ [{| id := generated_id env;
           customer_id := get formData "customerId";
           amount := VNumber (mul (Number (get formData "amount")) (of_Z 100));
           status := get formData "status";
           date := VString (iso_date (clock env)) |}].
Proof.
  intros Hv Hs. rewrite createInvoice_behaviour, Hv, Hs.
  destruct (revalidate_fails env); reflexivity.
Qed.

Lemma updateInvoice_table (i : string) (formData : FormData)
    (env : Environment) (depth : nat) (w : World) :
  valid_form formData = true ->
  store_rejects env = false ->
  invoices (fst (updateInvoice i formData env depth w))
  = map (fun r =>
           if String.eqb (id r) i
           then updated_row (get formData "customerId")
                  (VNumber (mul (Number (get formData "amount")) (of_Z 100)))
                  (get formData "status") r
           else r)
        (invoices w).
Proof.
  intros Hv Hs. rewrite updateInvoice_behaviour, Hv, Hs.
  destruct (revalidate_fails env); reflexivity.
Qed.

(** C3, as the code has it. For a valid form and a store that accepts the
    statement, the amount of the row [createInvoice] adds, and of every row
    [updateInvoice] writes (the rows of the identifier it was given), is
    the number [amount * 100], the binary64 product as computed: it is
    never [NaN] and never below zero, and nothing rounds or truncates it to
    an integer. *)
Theorem persisted_amount_is_product_not_negative (prevState : State) (i : string)
    (formData : FormData) (env : Environment) (depth : nat) (w : World) :
  valid_form formData = true ->
  store_rejects env = false ->
  let cents := mul (Number (get formData "amount")) (of_Z 100) in
  isNaN cents = false
  /\ leb pos_zero cents = true
  /\ (exists row,
        invoices (fst (createInvoice prevState formData env depth w))
        = invoices w ++ [row]
        /\ amount row = VNumber cents)
  /\ (forall row,
        In row (invoices (fst (updateInvoice i formData env depth w))) ->
        id row = i -> amount row = VNumber cents).
Proof.
  intros Hv Hs cents.
  assert (Ha : ltb pos_zero (Number (get formData "amount")) = true).
  { unfold valid_form in Hv. apply andb_true_iff in Hv. destruct Hv as [Hv _].
    apply andb_true_iff in Hv. exact (proj2 Hv). }
  destruct (times_100_nonneg _ Ha) as [Hnan Hle].
  split; [exact Hnan | split; [exact Hle | split]].
  - eexists. split; [apply createInvoice_table; assumption | reflexivity].
  - intros row Hin Hid. rewrite updateInvoice_table in Hin by assumption.
    apply in_map_iff in Hin. destruct Hin as [r [Hr _]].
    destruct (String.eqb_spec (id r) i) as [Heq | Hne].
    + subst row. reflexivity.
    + subst row. contradiction.
Qed.

Lemma persisted_amount_is_product_not_negative_witness :
  isNaN (of_Z 2000) = false
  /\ leb pos_zero (of_Z 2000) = true
  /\ (exists row,
        invoices (fst (createInvoice no_state (form "c1" "20" "paid") all_well 0%nat
                         two_invoices))
        = invoices two_invoices ++ [row]
        /\ amount row = VNumber (of_Z 2000))
  /\ (forall row,
        In row (invoices (fst (updateInvoice "inv-2" (form "c1" "20" "paid") all_well
                                 0%nat two_invoices))) ->
        id row = "inv-2" -> amount row = VNumber (of_Z 2000)).
Proof.
  exact (persisted_amount_is_product_not_negative no_state "inv-2"
           (form "c1" "20" "paid") all_well 0%nat two_invoices eq_refl eq_refl).
Defined.

(** C3 as stated fails where [amount * 100] is not an integer: for the
    amount "19.99" both actions persist 1998.9999999999998. *)
Lemma persisted_amount_not_integer :
  map amount
    (invoices
       (fst (createInvoice no_state (form "c1" "19.99" "paid") all_well 0%nat
               empty_world)))
  = [VNumber (S754_finite false 8791694975696895 (-42))]
  /\ map amount
       (invoices
          (fst (updateInvoice "inv-2" (form "c1" "19.99" "paid") all_well 0%nat
                  two_invoices)))
     = [VNumber (of_Z 500); VNumber (S754_finite false 8791694975696895 (-42))]
  /\ isInteger (S754_finite false 8791694975696895 (-42)) = false.
Proof.
  split; [| split]; vm_compute; reflexivity.
Qed.

(** ** Update *)

(** C7, as the code has it. For any identifier and any valid form, when
    the store accepts the statement and the cache invalidation returns,
    [updateInvoice] rewrites the rows of that identifier, and only them:
    their customer and status are the submitted ones, their amount is the
    submitted amount times the binary64 number 100 (7036874417766400 *
    2^-46), their identifier and date are kept, and every other row is
    left as it was; it then invalidates /dashboard/invoices and raises the
    redirect signal. For an invalid form it throws the validation error
    and leaves the world as it was: no store write and no redirect. *)
Theorem updateInvoice_matching_row_only (i : string) (formData : FormData)
    (env : Environment) (depth : nat) (w : World) :
  (valid_form formData = true ->
   store_rejects env = false ->
   revalidate_fails env = false ->
   let customer := get formData "customerId" in
   let cents :=
     VNumber (mul (Number (get formData "amount"))
                (S754_finite false 7036874417766400 (-46))) in
   let st := get formData "status" in
   updateInvoice i formData env depth w
   = ({| invoices :=
           map (fun r =>
                  if String.eqb (id r) i
                  then {| id := id r; customer_id := customer; amount := cents;
                          status := st; date := date r |}
                  else r)
               (invoices w);
         events :=
           events w
           ++ [{| scope := S depth;
                  effect := StoreWrite (UPDATE_invoices customer cents st i) |};
               {| scope := depth; effect := RevalidatePath "/dashboard/invoices" |};
               {| scope := depth; effect := Redirect "/dashboard/invoices" |}] |},
      Throw (NEXT_REDIRECT "/dashboard/invoices")))
  /\ (valid_form formData = false ->
      exists error,
        updateInvoice i formData env depth w = (w, Throw (ThrownZodError error))).
Proof.
  split.
  - intros Hv Hs Hr customer cents st.
    rewrite updateInvoice_succeeds by assumption. reflexivity.
  - intros Hv. exists (form_issues formData).
    rewrite updateInvoice_behaviour, Hv. reflexivity.
Qed.

(** The second of two invoices updated with the amount 19.99, written as
    1998.9999999999998 (8791694975696895 * 2^-42); and an update with a
    negative amount. *)
Lemma updateInvoice_matching_row_only_witness :
  updateInvoice "inv-2" (form "c9" "19.99" "pending") all_well 0%nat two_invoices
  = ({| invoices :=
          [ {| id := "inv-1"; customer_id := VString "c1";
               amount := VNumber (S754_finite false 8796093022208000 (-44));
               status := VString "pending"; date := VString "2024-01-15" |};
            {| id := "inv-2"; customer_id := VString "c9";
               amount := VNumber (S754_finite false 8791694975696895 (-42));
               status := VString "pending"; date := VString "2024-02-29" |} ];
        events :=
          [{| scope := 1;
              effect := StoreWrite
                          (UPDATE_invoices (VString "c9")
                             (VNumber (S754_finite false 8791694975696895 (-42)))
                             (VString "pending") "inv-2") |};
           {| scope := 0; effect := RevalidatePath "/dashboard/invoices" |};
           {| scope := 0; effect := Redirect "/dashboard/invoices" |}] |},
     Throw (NEXT_REDIRECT "/dashboard/invoices"))
  /\ exists error,
       updateInvoice "inv-2" (form "c9" "-20" "pending") all_well 0%nat two_invoices
       = (two_invoices, Throw (ThrownZodError error)).
Proof.
  split.
  - exact (proj1 (updateInvoice_matching_row_only "inv-2" (form "c9" "19.99" "pending")
                    all_well 0%nat two_invoices) eq_refl eq_refl eq_refl).
  - exact (proj2 (updateInvoice_matching_row_only "inv-2" (form "c9" "-20" "pending")
                    all_well 0%nat two_invoices) eq_refl).
Defined.

(** C7 as stated fails when a collaborator does not answer. With a valid
    form and a store that rejects the statement, [updateInvoice] rewrites
    no row and raises no redirect: it returns the database-error message.
    With the statement accepted and the cache invalidation failing, the
    row is rewritten but no redirect is raised: the failure is thrown. *)
Lemma updateInvoice_valid_form_no_redirect :
  valid_form (form "c9" "20" "pending") = true
  /\ updateInvoice "inv-2" (form "c9" "20" "pending") store_down 0%nat two_invoices
     = ({| invoices := invoices two_invoices;
           events :=
             [{| scope := 1;
                 effect := StoreFailure
                             (UPDATE_invoices (VString "c9")
                                (VNumber (S754_finite false 8796093022208000 (-42)))
                                (VString "pending") "inv-2") |}] |},
        Return {| errors := None;
                  message := Some "Database Error: Failed to Update Invoice." |})
  /\ snd (updateInvoice "inv-2" (form "c9" "20" "pending") cache_down 0%nat
            two_invoices)
     = Throw RevalidateError
  /\ List.filter is_redirect
       (events (fst (updateInvoice "inv-2" (form "c9" "20" "pending") cache_down 0%nat
                       two_invoices)))
     = [].
Proof.
  split; [reflexivity | split; [| split]].
  - rewrite updateInvoice_behaviour. vm_compute. reflexivity.
  - rewrite updateInvoice_behaviour. vm_compute. reflexivity.
  - rewrite updateInvoice_behaviour. vm_compute. reflexivity.
Qed.

(** ** Delete *)

(** C8, as the code has it. For any identifier: when the store accepts
    the delete and the cache invalidation returns, [deleteInvoice] removes
    the rows of that identifier, invalidates /dashboard/invoices and
    returns the message "Deleted Invoice.", raising no redirect; when the
    store rejects the delete, it returns the message "Database Error:
    Failed to Delete Invoice." and the table is as it was. *)
Theorem deleteInvoice_result (i : string) (env : Environment) (depth : nat) (w : World) :
  (store_rejects env = false ->
   revalidate_fails env = false ->
   deleteInvoice i env depth w
   = ({| invoices := List.filter (fun r => negb (String.eqb (id r) i)) (invoices w);
         events :=
           events w
           ++ [{| scope := S depth; effect := StoreWrite (DELETE_FROM_invoices i) |};
               {| scope := S depth;
                  effect := RevalidatePath "/dashboard/invoices" |}] |},
      Return {| errors := None; message := Some "Deleted Invoice." |}))
  /\ (store_rejects env = true ->
      deleteInvoice i env depth w
      = ({| invoices := invoices w;
            events :=
              events w
              ++ [{| scope := S depth;
                     effect := StoreFailure (DELETE_FROM_invoices i) |}] |},
         Return {| errors := None;
                   message := Some "Database Error: Failed to Delete Invoice." |})).
Proof.
  split.
  - intros Hs Hr. rewrite deleteInvoice_behaviour, Hs, Hr.
    unfold committed, record. simpl. rewrite <- app_assoc. reflexivity.
  - intros Hs. rewrite deleteInvoice_behaviour, Hs. reflexivity.
Qed.

Lemma deleteInvoice_result_witness :
  deleteInvoice "inv-1" all_well 0%nat two_invoices
  = ({| invoices :=
          [ {| id := "inv-2"; customer_id := VString "c2";
               amount := VNumber (of_Z 1250); status := VString "paid";
               date := VString "2024-02-29" |} ];
        events :=
          [{| scope := 1; effect := StoreWrite (DELETE_FROM_invoices "inv-1") |};
           {| scope := 1; effect := RevalidatePath "/dashboard/invoices" |}] |},
     Return {| errors := None; message := Some "Deleted Invoice." |})
  /\ deleteInvoice "inv-1" store_down 0%nat two_invoices
     = ({| invoices := invoices two_invoices;
           events :=
             [{| scope := 1; effect := StoreFailure (DELETE_FROM_invoices "inv-1") |}] |},
        Return {| errors := None;
                  message := Some "Database Error: Failed to Delete Invoice." |}).
Proof.
  split.
  - exact (proj1 (deleteInvoice_result "inv-1" all_well 0%nat two_invoices)
             eq_refl eq_refl).
  - exact (proj2 (deleteInvoice_result "inv-1" store_down 0%nat two_invoices) eq_refl).
Defined.

(** C8 as stated fails when the store accepts the delete and the cache
    invalidation then fails: the row is gone, no invalidation is recorded,
    and what [deleteInvoice] returns is the database-error message, not
    "Deleted Invoice.". *)
Lemma deleteInvoice_accepted_cache_down :
  store_rejects cache_down = false
  /\ deleteInvoice "inv-1" cache_down 0%nat two_invoices
     = ({| invoices :=
             [ {| id := "inv-2"; customer_id := VString "c2";
                  amount := VNumber (of_Z 1250); status := VString "paid";
                  date := VString "2024-02-29" |} ];
           events :=
             [{| scope := 1; effect := StoreWrite (DELETE_FROM_invoices "inv-1") |};
              {| scope := 1; effect := RevalidateFailure "/dashboard/invoices" |}] |},
        Return {| errors := None;
                  message := Some "Database Error: Failed to Delete Invoice." |})
  /\ List.filter is_revalidation
       (events (fst (deleteInvoice "inv-1" cache_down 0%nat two_invoices)))
     = []
  /\ Some "Database Error: Failed to Delete Invoice." <> Some "Deleted Invoice.".
Proof.
  split; [reflexivity | split; [| split]].
  - rewrite deleteInvoice_behaviour. reflexivity.
  - rewrite deleteInvoice_behaviour. reflexivity.
  - discriminate.
Qed.

(** C10. For any identifier, whatever the store and the cache do,
    [deleteInvoice] returns and throws nothing, and what it returns is one
    of the two messages "Deleted Invoice." and "Database Error: Failed to
    Delete Invoice."; when the delete went through and the cache
    invalidation then failed, it is the second. *)
Theorem deleteInvoice_never_throws (i : string) (env : Environment) (depth : nat)
    (w : World) :
  exists w' result,
    deleteInvoice i env depth w = (w', Return result)
    /\ (result = {| errors := None; message := Some "Deleted Invoice." |}
        \/ result = {| errors := None;
                       message := Some "Database Error: Failed to Delete Invoice." |})
    /\ (store_rejects env = false ->
        revalidate_fails env = true ->
        result = {| errors := None;
                    message := Some "Database Error: Failed to Delete Invoice." |}).
Proof.
  rewrite deleteInvoice_behaviour.
  destruct (store_rejects env) eqn:Hs; [| destruct (revalidate_fails env) eqn:Hr];
    simpl; eexists; eexists; (split; [reflexivity |]); split; auto; intros; congruence.
Qed.

(** ** The redirect *)

Lemma no_event_in_nil (pre post : list Event) (e : Event) : [] <> pre ++ e :: post.
Proof. destruct pre; discriminate. Qed.

Lemma redirect_discipline_failed (depth : nat) (w : World) (c : Completion State)
    (failure : Effect) (sc : nat) :
  (forall url, failure <> Redirect url) ->
  redirect_discipline depth w (record w sc failure, c).
Proof.
  intros Hf. exists [{| scope := sc; effect := failure |}]. split; [reflexivity |].
  intros pre e post url Heq Hred. exfalso.
  destruct pre as [| e1 pre]; simpl in Heq.
  - injection Heq as <- _. simpl in Hred. now apply (Hf url).
  - injection Heq as _ Heq. now apply no_event_in_nil in Heq.
Qed.

Lemma redirect_discipline_cache_failed (depth : nat) (w : World) (c : Completion State)
    (statement : Statement) (env : Environment) :
  redirect_discipline depth w
    (record (committed statement env (S depth) w) depth
       (RevalidateFailure "/dashboard/invoices"), c).
Proof.
  exists [{| scope := S depth; effect := StoreWrite statement |};
          {| scope := depth; effect := RevalidateFailure "/dashboard/invoices" |}].
  split; [unfold committed, record; simpl; now rewrite <- app_assoc |].
  intros pre e post url Heq Hred. exfalso.
  destruct pre as [| e1 pre]; simpl in Heq.
  - injection Heq as <- _. discriminate Hred.
  - injection Heq as _ Heq. destruct pre as [| e2 pre]; simpl in Heq.
    + injection Heq as <- _. discriminate Hred.
    + injection Heq as _ Heq. now apply no_event_in_nil in Heq.
Qed.

Lemma redirect_discipline_redirected (depth : nat) (w : World)
    (statement : Statement) (env : Environment) :
  redirect_discipline depth w
    (record
       (record (committed statement env (S depth) w) depth
          (RevalidatePath "/dashboard/invoices"))
       depth (Redirect "/dashboard/invoices"),
     Throw (NEXT_REDIRECT "/dashboard/invoices")).
Proof.
  exists [{| scope := S depth; effect := StoreWrite statement |};
          {| scope := depth; effect := RevalidatePath "/dashboard/invoices" |};
          {| scope := depth; effect := Redirect "/dashboard/invoices" |}].
  split; [unfold committed, record; simpl; now rewrite <- !app_assoc |].
  intros pre e post url Heq Hred.
  destruct pre as [| e1 pre]; simpl in Heq.
  { injection Heq as <- _. discriminate Hred. }
  injection Heq as <- Heq. destruct pre as [| e2 pre]; simpl in Heq.
  { injection Heq as <- _. discriminate Hred. }
  injection Heq as <- Heq. destruct pre as [| e3 pre]; simpl in Heq.
  - injection Heq as <- _. simpl in Hred. injection Hred as <-.
    split; [reflexivity | split; [| split]].
    + exists statement. now left.
    + intros sc failed [H | [H | []]]; discriminate H.
    + reflexivity.
  - injection Heq as _ Heq. now apply no_event_in_nil in Heq.
Qed.

Lemma redirect_discipline_silent (depth : nat) (w : World) (c : Completion State) :
  redirect_discipline depth w (w, c).
Proof.
  exists []. split; [now rewrite app_nil_r |].
  intros pre e post url Heq _. now apply no_event_in_nil in Heq.
Qed.

(** What the discipline rules out: a redirect raised inside a [try] block
    is caught by its handler, the call returns the handler's result, and
    the discipline does not hold of that run. *)
Lemma redirect_inside_try_is_caught (url : string) (result : State)
    (env : Environment) (depth : nat) (w : World) :
  try_catch (redirect url) (fun _ => ret result) env depth w
  = (record w (S depth) (Redirect url), Return result)
  /\ ~ redirect_discipline depth w
        (try_catch (redirect url) (fun _ => ret result) env depth w).
Proof.
  split; [reflexivity |].
  intros [evs [Hev H]]. simpl in Hev. apply app_inv_head in Hev. subst evs.
  destruct (H [] {| scope := S depth; effect := Redirect url |} [] url
              eq_refl eq_refl) as [Hscope _].
  simpl in Hscope. lia.
Qed.

(** C9. In every run of [createInvoice] and of [updateInvoice], whatever
    the form, the store and the cache do, a redirect signal is raised only
    after the store has accepted the statement (and rejected none), it is
    raised outside the [try] block that surrounds the store write, and it
    reaches the caller as the redirect signal: it is not caught and turned
    into a store-failure result. *)
Theorem redirect_after_write_outside_try (prevState : State) (i : string)
    (formData : FormData) (env : Environment) (depth : nat) (w : World) :
  redirect_discipline depth w (createInvoice prevState formData env depth w)
  /\ redirect_discipline depth w (updateInvoice i formData env depth w).
Proof.
  split.
  - rewrite createInvoice_behaviour.
    destruct (valid_form formData); [| apply redirect_discipline_silent].
    cbv zeta. destruct (store_rejects env).
    { apply redirect_discipline_failed. discriminate. }
    destruct (revalidate_fails env).
    + apply redirect_discipline_cache_failed.
    + apply redirect_discipline_redirected.
  - rewrite updateInvoice_behaviour.
    destruct (valid_form formData); [| apply redirect_discipline_silent].
    cbv zeta. destruct (store_rejects env).
    { apply redirect_discipline_failed. discriminate. }
    destruct (revalidate_fails env).
    + apply redirect_discipline_cache_failed.
    + apply redirect_discipline_redirected.
Qed.

(** ** A store failure on create *)

Lemma createInvoice_store_failure (prevState : State) (formData : FormData)
    (env : Environment) (depth : nat) (w : World) :
  valid_form formData = true ->
  store_rejects env = true ->
  createInvoice prevState formData env depth w
  = ({| invoices := invoices w;
        events :=
          events w
          ++ [{| scope := S depth;
                 effect := StoreFailure (insert_statement formData env) |}] |},
     Return {| errors := None;
               message := Some "Database Error: Failed to Create Invoice. " |}).
Proof.
  intros Hv Hs. rewrite createInvoice_behaviour, Hv, Hs. reflexivity.
Qed.

(** C2, on the code. With a valid form and a store that rejects the insert,
    [createInvoice] leaves the table as it was and neither invalidates the
    cache nor redirects, but the message it returns is "Database Error:
    Failed to Create Invoice. " with a space after the full stop, which is
    not the message "Database Error: Failed to Create Invoice.". *)
Theorem createInvoice_store_failure_message :
  createInvoice no_state (form "c1" "20" "paid") store_down 0%nat two_invoices
  = ({| invoices := invoices two_invoices;
        events :=
          [{| scope := 1;
              effect := StoreFailure
                          (INSERT_INTO_invoices (VString "c1") (VNumber (of_Z 2000))
                             (VString "paid") (VString "2026-11-06")) |}] |},
     Return {| errors := None;
               message := Some "Database Error: Failed to Create Invoice. " |})
  /\ "Database Error: Failed to Create Invoice. "
     <> "Database Error: Failed to Create Invoice.".
Proof.
  split.
  - rewrite createInvoice_store_failure by reflexivity. reflexivity.
  - discriminate.
Qed.

(** ** Further properties of the actions *)

(** X1. When the submitted amount coerces to [NaN] (text that is no
    number, or a file), [createInvoice] rejects the form without touching
    the world, and the [amount] entry of the error mapping is the
    validator's type message, "Expected number, received nan". *)
Theorem createInvoice_amount_not_a_number (prevState : State) (formData : FormData)
    (env : Environment) (depth : nat) (w : World) :
  isNaN (Number (get formData "amount")) = true ->
  exists errs,
    createInvoice prevState formData env depth w
    = (w, Return {| errors := Some errs;
                    message := Some "Missing Fields. Failed to Create Invoice." |})
    /\ errs !! "amount" = Some ["Expected number, received nan"].
Proof.
  intros H. exists (fieldErrors (form_issues formData)). split.
  - apply createInvoice_rejects. unfold valid_form, amount_ok.
    destruct (Number (get formData "amount")); try discriminate H.
    simpl. now rewrite andb_false_r.
  - rewrite form_errors_amount. unfold amount_issues. now rewrite H.
Qed.

Lemma createInvoice_amount_not_a_number_witness :
  exists errs,
    createInvoice no_state (form "c1" "twenty" "paid") all_well 0%nat two_invoices
    = (two_invoices,
       Return {| errors := Some errs;
                 message := Some "Missing Fields. Failed to Create Invoice." |})
    /\ errs !! "amount" = Some ["Expected number, received nan"].
Proof.
  apply (createInvoice_amount_not_a_number no_state (form "c1" "twenty" "paid")
           all_well 0%nat two_invoices).
  reflexivity.
Defined.

(** X2. With a valid form and a store that rejects the update,
    [updateInvoice] returns the message "Database Error: Failed to Update
    Invoice.", leaves the table as it was, and neither invalidates the
    cache nor redirects. *)
Theorem updateInvoice_store_failure (i : string) (formData : FormData)
    (env : Environment) (depth : nat) (w : World) :
  valid_form formData = true ->
  store_rejects env = true ->
  updateInvoice i formData env depth w
  = ({| invoices := invoices w;
        events :=
          events w
          ++ [{| scope := S depth;
                 effect := StoreFailure (update_statement i formData) |}] |},
     Return {| errors := None;
               message := Some "Database Error: Failed to Update Invoice." |}).
Proof.
  intros Hv Hs. rewrite updateInvoice_behaviour, Hv, Hs. reflexivity.
Qed.

Lemma updateInvoice_store_failure_witness :
  updateInvoice "inv-1" (form "c1" "20" "paid") store_down 0%nat two_invoices
  = ({| invoices := invoices two_invoices;
        events :=
          [{| scope := 1;
              effect := StoreFailure
                          (UPDATE_invoices (VString "c1") (VNumber (of_Z 2000))
                             (VString "paid") "inv-1") |}] |},
     Return {| errors := None;
               message := Some "Database Error: Failed to Update Invoice." |}).
Proof.
  exact (updateInvoice_store_failure "inv-1" (form "c1" "20" "paid") store_down 0%nat
           two_invoices eq_refl eq_refl).
Defined.

(** X3. When the store accepts the delete and the cache invalidation then
    fails, the rows of the identifier are gone from the table although
    [deleteInvoice] returns "Database Error: Failed to Delete Invoice.". *)
Theorem deleteInvoice_cache_failure_keeps_delete (i : string) (env : Environment)
    (depth : nat) (w : World) :
  store_rejects env = false ->
  revalidate_fails env = true ->
  deleteInvoice i env depth w
  = ({| invoices := List.filter (fun r => negb (String.eqb (id r) i)) (invoices w);
        events :=
          events w
          ++ [{| scope := S depth; effect := StoreWrite (DELETE_FROM_invoices i) |};
              {| scope := S depth;
                 effect := RevalidateFailure "/dashboard/invoices" |}] |},
     Return {| errors := None;
               message := Some "Database Error: Failed to Delete Invoice." |}).
Proof.
  intros Hs Hr. rewrite deleteInvoice_behaviour, Hs, Hr.
  unfold committed, record. simpl. rewrite <- app_assoc. reflexivity.
Qed.

Lemma deleteInvoice_cache_failure_keeps_delete_witness :
  deleteInvoice "inv-1" cache_down 0%nat two_invoices
  = ({| invoices :=
          [ {| id := "inv-2"; customer_id := VString "c2";
               amount := VNumber (of_Z 1250); status := VString "paid";
               date := VString "2024-02-29" |} ];
        events :=
          [{| scope := 1; effect := StoreWrite (DELETE_FROM_invoices "inv-1") |};
           {| scope := 1; effect := RevalidateFailure "/dashboard/invoices" |}] |},
     Return {| errors := None;
               message := Some "Database Error: Failed to Delete Invoice." |}).
Proof.
  exact (deleteInvoice_cache_failure_keeps_delete "inv-1" cache_down 0%nat two_invoices
           eq_refl eq_refl).
Defined.

(** X4. [createInvoice] reads the three fields [customerId], [amount] and
    [status] of the form and nothing else of it, nor anything of the
    previous state: two forms that agree on the three fields give the same
    run, so an [id] or a [date] the caller submits is never taken. *)
Theorem createInvoice_reads_three_fields (prevState prevState' : State)
    (formData formData' : FormData) (env : Environment) (depth : nat) (w : World) :
  (forall key, In key ["customerId"; "amount"; "status"] ->
               get formData key = get formData' key) ->
  createInvoice prevState formData env depth w
  = createInvoice prevState' formData' env depth w.
Proof.
  intros H. rewrite !createInvoice_behaviour.
  unfold valid_form, insert_statement, form_issues.
  rewrite (H "customerId"), (H "amount"), (H "status") by (simpl; tauto).
  reflexivity.
Qed.

Lemma createInvoice_reads_three_fields_witness :
  createInvoice no_state
    (("id", EntryString "inv-1") :: ("date", EntryString "1999-01-01")
       :: form "c1" "20" "paid")
    all_well 0%nat two_invoices
  = createInvoice no_state (form "c1" "20" "paid") all_well 0%nat two_invoices.
Proof.
  apply createInvoice_reads_three_fields.
  intros key Hk. simpl in Hk.
  destruct Hk as [<- | [<- | [<- | []]]]; reflexivity.
Defined.

(** X5. Whatever the form, the store and the cache do, [createInvoice]
    keeps the rows the table had, in order, and adds at most one. *)
Theorem createInvoice_keeps_rows (prevState : State) (formData : FormData)
    (env : Environment) (depth : nat) (w : World) :
  exists added,
    invoices (fst (createInvoice prevState formData env depth w))
    = invoices w ++ added
    /\ (length added <= 1)%nat.
Proof.
  rewrite createInvoice_behaviour.
  destruct (valid_form formData);
    [destruct (store_rejects env); [| destruct (revalidate_fails env)] |]; simpl.
  - exists []. split; [now rewrite app_nil_r | simpl; lia].
  - eexists. split; [reflexivity | simpl; lia].
  - eexists. split; [reflexivity | simpl; lia].
  - exists []. split; [now rewrite app_nil_r | simpl; lia].
Qed.

(** ** The authorization callback *)

Lemma strip_prefix_app (p r : string) : strip_prefix p (p +:+ r) = Some r.
Proof.
  induction p as [| a p IH]; simpl; [reflexivity |].
  now rewrite Ascii.eqb_refl.
Qed.

Lemma strip_prefix_Some (p s r : string) : strip_prefix p s = Some r -> s = p +:+ r.
Proof.
  revert s. induction p as [| a p IH]; intros s H; simpl in *.
  - now injection H as ->.
  - destruct s as [| b s]; [discriminate H |].
    destruct (Ascii.eqb_spec a b) as [-> | _]; [| discriminate H].
    change (String b s = String b (p +:+ r)). f_equal. now apply IH.
Qed.

(** [s.startsWith(p)] holds exactly of the strings that are [p] followed
    by something. *)
Lemma startsWith_iff (s p : string) :
  startsWith s p = true <-> exists rest, s = p +:+ rest.
Proof.
  unfold startsWith. split.
  - destruct (strip_prefix p s) as [r |] eqn:E; [| discriminate].
    intros _. exists r. now apply strip_prefix_Some.
  - intros [r ->]. now rewrite strip_prefix_app.
Qed.

(** X6. The callback refuses a request exactly when there is no logged-in
    user and the path starts with "/dashboard" (the dashboard itself, a
    page under it, or any path that merely begins with these letters);
    every other request is let through or redirected. *)
Theorem authorized_denies_exactly (auth : option AuthConfig.Session)
    (nextUrl : AuthConfig.URL) :
  AuthConfig.authorized auth nextUrl = AuthConfig.Verdict false
  <-> AuthConfig.isLoggedIn auth = false
      /\ exists rest, AuthConfig.pathname nextUrl = "/dashboard" +:+ rest.
Proof.
  unfold AuthConfig.authorized. rewrite <- startsWith_iff.
  destruct (startsWith (AuthConfig.pathname nextUrl) "/dashboard");
    destruct (AuthConfig.isLoggedIn auth); split;
    try (intros H; discriminate H); try (intros [H1 H2]; discriminate);
    try (intros _; split; reflexivity); try reflexivity.
Qed.

(** X7. The callback answers with a redirect exactly when a user is logged
    in and the path does not start with "/dashboard"; the redirect then
    goes to the path "/dashboard" on the origin of the request, without
    query or fragment. *)
Theorem authorized_redirects_exactly (auth : option AuthConfig.Session)
    (nextUrl target : AuthConfig.URL) :
  AuthConfig.authorized auth nextUrl = AuthConfig.ResponseRedirect target
  <-> AuthConfig.isLoggedIn auth = true
      /\ startsWith (AuthConfig.pathname nextUrl) "/dashboard" = false
      /\ target = {| AuthConfig.origin := AuthConfig.origin nextUrl;
                     AuthConfig.pathname := "/dashboard";
                     AuthConfig.search := "";
                     AuthConfig.hash := "" |}.
Proof.
  unfold AuthConfig.authorized, AuthConfig.new_URL.
  destruct (startsWith (AuthConfig.pathname nextUrl) "/dashboard");
    destruct (AuthConfig.isLoggedIn auth); split;
    try (intros H; discriminate H);
    try (intros [H1 [H2 H3]]; discriminate).
  - intros H. injection H as <-. auto.
  - intros [_ [_ ->]]. reflexivity.
Qed.

(** X8. The callback sends nobody in circles: the page it redirects a
    request to is one it lets the same session through, and when it
    refuses a request it lets the same session through to the sign-in
    page. *)
Theorem authorized_no_loop (auth : option AuthConfig.Session)
    (nextUrl : AuthConfig.URL) :
  (forall target,
     AuthConfig.authorized auth nextUrl = AuthConfig.ResponseRedirect target ->
     AuthConfig.authorized auth target = AuthConfig.Verdict true)
  /\ (AuthConfig.authorized auth nextUrl = AuthConfig.Verdict false ->
      forall login,
        AuthConfig.pathname login = AuthConfig.signIn ->
        AuthConfig.authorized auth login = AuthConfig.Verdict true).
Proof.
  split.
  - intros target H. unfold AuthConfig.authorized in *.
    destruct (startsWith (AuthConfig.pathname nextUrl) "/dashboard");
      [discriminate H |].
    destruct (AuthConfig.isLoggedIn auth) eqn:Hl; [| discriminate H].
    injection H as <-. reflexivity.
  - intros H login Hp. unfold AuthConfig.authorized in *. rewrite Hp.
    destruct (startsWith (AuthConfig.pathname nextUrl) "/dashboard");
      [| destruct (AuthConfig.isLoggedIn auth); discriminate H].
    injection H as ->. reflexivity.
Qed.

Lemma authorized_no_loop_witness :
  AuthConfig.authorized
    (Some {| AuthConfig.user :=
               Some {| AuthConfig.name := Some "Ada"; AuthConfig.email := None |} |})
    {| AuthConfig.origin := "https://example.com"; AuthConfig.pathname := "/dashboard";
       AuthConfig.search := ""; AuthConfig.hash := "" |}
  = AuthConfig.Verdict true
  /\ AuthConfig.authorized None
       {| AuthConfig.origin := "https://example.com"; AuthConfig.pathname := "/login";
          AuthConfig.search := "?callbackUrl=%2Fdashboard%2Finvoices";
          AuthConfig.hash := "" |}
     = AuthConfig.Verdict true.
Proof.
  split.
  - apply (proj1 (authorized_no_loop
                    (Some {| AuthConfig.user :=
                               Some {| AuthConfig.name := Some "Ada";
                                       AuthConfig.email := None |} |})
                    {| AuthConfig.origin := "https://example.com";
                       AuthConfig.pathname := "/"; AuthConfig.search := "?a=1";
                       AuthConfig.hash := "#top" |})).
    reflexivity.
  - apply (proj2 (authorized_no_loop None
                    {| AuthConfig.origin := "https://example.com";
                       AuthConfig.pathname := "/dashboard/invoices";
                       AuthConfig.search := ""; AuthConfig.hash := "" |})).
    + reflexivity.
    + reflexivity.
Defined.

(** ** The earlier create action *)

Lemma safeParse_earlier (formData : FormData) :
  safeParse EarlierActions.CreateInvoice (submitted formData)
  = if EarlierActions.accepts formData then SafeParseSuccess (validated formData)
    else SafeParseError (EarlierActions.issues formData).
Proof.
  unfold EarlierActions.accepts, EarlierActions.issues, validated, submitted.
  unfold safeParse, parse_object.
  let c := eval vm_compute in EarlierActions.CreateInvoice in
    change EarlierActions.CreateInvoice with c.
  cbn [parse_shape prop String.eqb Ascii.eqb Bool.eqb _parse fst snd].
  generalize (Number (get formData "amount")) as n. intros n.
  form_value_of get_cases formData "customerId";
    form_value_of get_cases formData "status";
    destruct n as [sg | sg | | sg m e]; try destruct sg;
    cbn; try reflexivity;
    destruct (String.eqb _ "pending"); destruct (String.eqb _ "paid"); reflexivity.
Qed.

Lemma earlier_createInvoice_behaviour (formData : FormData)
    (env : Environment) (depth : nat) (w : World) :
  EarlierActions.createInvoice formData env depth w
  = if EarlierActions.accepts formData then
      let statement := insert_statement formData env in
      if store_rejects env then
        (record w depth (StoreFailure statement), Throw StoreError)
      else
        let w1 := committed statement env depth w in
        if revalidate_fails env then
          (record w1 depth (RevalidateFailure "/dashboard/invoices"),
           Throw RevalidateError)
        else
          (record (record w1 depth (RevalidatePath "/dashboard/invoices")) depth
             (Redirect "/dashboard/invoices"),
           Throw (NEXT_REDIRECT "/dashboard/invoices"))
    else (w, Throw (ThrownZodError (EarlierActions.issues formData))).
Proof.
  unfold EarlierActions.createInvoice, parse. fold (submitted formData).
  rewrite safeParse_earlier.
  destruct (EarlierActions.accepts formData); [| reflexivity].
  unfold validated, times, insert_statement.
  run_action. cbn [prop String.eqb Ascii.eqb Bool.eqb Number].
  rewrite toISOString_date.
  destruct (store_rejects env); [reflexivity |].
  destruct (revalidate_fails env); reflexivity.
Qed.

Lemma valid_form_accepted_earlier (formData : FormData) :
  valid_form formData = true -> EarlierActions.accepts formData = true.
Proof.
  unfold valid_form, EarlierActions.accepts. intros H.
  apply andb_true_iff in H. destruct H as [H Hs].
  apply andb_true_iff in H. destruct H as [Hc Ha].
  apply amount_ok_true in Ha. destruct Ha as [Hn _].
  now rewrite Hc, Hn, Hs.
Qed.

(** X9. The earlier [createInvoice] puts no bound on the amount: for a
    form whose customer is a string, whose amount coerces to any number
    (zero and negative ones too) and whose status is "pending" or "paid",
    with the store accepting and the cache invalidation returning, it
    adds one row holding [amount * 100] and raises the redirect. *)
Theorem earlier_createInvoice_any_amount (formData : FormData)
    (env : Environment) (depth : nat) (w : World) (customer st : string) :
  get formData "customerId" = VString customer ->
  isNaN (Number (get formData "amount")) = false ->
  get formData "status" = VString st ->
  st = "pending" \/ st = "paid" ->
  store_rejects env = false ->
  revalidate_fails env = false ->
  let written := VNumber (mul (Number (get formData "amount")) (of_Z 100)) in
  let today := VString (iso_date (clock env)) in
  EarlierActions.createInvoice formData env depth w
  = ({| invoices :=
          invoices w
          ++ [{| id := generated_id env; customer_id := VString customer;
                 amount := written; status := VString st; date := today |}];
        events :=
          events w
          ++ [{| scope := depth;
                 effect := StoreWrite
                             (INSERT_INTO_invoices (VString customer) written
                                (VString st) today) |};
              {| scope := depth; effect := RevalidatePath "/dashboard/invoices" |};
              {| scope := depth; effect := Redirect "/dashboard/invoices" |}] |},
     Throw (NEXT_REDIRECT "/dashboard/invoices")).
Proof.
  intros Hc Ha Hs Hst Hsr Hrf written today.
  rewrite earlier_createInvoice_behaviour.
  assert (Hok : EarlierActions.accepts formData = true).
  { unfold EarlierActions.accepts. rewrite Hc, Ha, Hs. simpl.
    destruct Hst as [-> | ->]; reflexivity. }
  rewrite Hok, Hsr, Hrf. unfold committed, record, insert_statement. simpl.
  rewrite <- !app_assoc, Hc, Hs. reflexivity.
Qed.

(** A negative amount, which the current schema refuses, goes into the
    table as -500. *)
Lemma earlier_createInvoice_any_amount_witness :
  EarlierActions.createInvoice (form "c1" "-5" "paid") all_well 0%nat empty_world
  = ({| invoices :=
          [{| id := "inv-3"; customer_id := VString "c1";
              amount := VNumber (of_Z (-500)); status := VString "paid";
              date := VString "2026-11-06" |}];
        events :=
          [{| scope := 0;
              effect := StoreWrite
                          (INSERT_INTO_invoices (VString "c1") (VNumber (of_Z (-500)))
                             (VString "paid") (VString "2026-11-06")) |};
           {| scope := 0; effect := RevalidatePath "/dashboard/invoices" |};
           {| scope := 0; effect := Redirect "/dashboard/invoices" |}] |},
     Throw (NEXT_REDIRECT "/dashboard/invoices")).
Proof.
  exact (earlier_createInvoice_any_amount (form "c1" "-5" "paid") all_well 0%nat
           empty_world "c1" "paid" eq_refl eq_refl eq_refl (or_intror eq_refl)
           eq_refl eq_refl).
Defined.

(** X10. The earlier [createInvoice] never returns to its caller: every
    run ends in something thrown. A form the schema refuses throws the
    validation error before anything is done; a statement the store
    rejects throws the store's error to the caller, with the table as it
    was and neither cache invalidation nor redirect. *)
Theorem earlier_createInvoice_always_throws (formData : FormData)
    (env : Environment) (depth : nat) (w : World) :
  exists w' thrown,
    EarlierActions.createInvoice formData env depth w = (w', Throw thrown)
    /\ (EarlierActions.accepts formData = false ->
        thrown = ThrownZodError (EarlierActions.issues formData) /\ w' = w)
    /\ (EarlierActions.accepts formData = true ->
        store_rejects env = true ->
        thrown = StoreError
        /\ invoices w' = invoices w
        /\ events w'
           = events w
             ++ [{| scope := depth;
                    effect := StoreFailure (insert_statement formData env) |}]).
Proof.
  rewrite earlier_createInvoice_behaviour.
  destruct (EarlierActions.accepts formData);
    [destruct (store_rejects env); [| destruct (revalidate_fails env)] |];
    cbv zeta; eexists; eexists; (split; [reflexivity |]);
    split; intros; try discriminate; auto.
Qed.

(** X11. On every form the current schema accepts, the current
    [createInvoice] and the earlier one leave the same table, whatever the
    store and the cache do; and when the store accepts the statement they
    end the same way, both throwing the same thing (the redirect signal,
    or the failure of the cache invalidation). *)
Theorem createInvoice_agrees_with_earlier (prevState : State) (formData : FormData)
    (env : Environment) (depth : nat) (w : World) :
  valid_form formData = true ->
  invoices (fst (createInvoice prevState formData env depth w))
  = invoices (fst (EarlierActions.createInvoice formData env depth w))
  /\ (store_rejects env = false ->
      exists thrown,
        snd (createInvoice prevState formData env depth w) = Throw thrown
        /\ snd (EarlierActions.createInvoice formData env depth w) = Throw thrown).
Proof.
  intros Hv. rewrite createInvoice_behaviour, earlier_createInvoice_behaviour.
  rewrite Hv, (valid_form_accepted_earlier _ Hv).
  destruct (store_rejects env); [| destruct (revalidate_fails env)]; simpl.
  - split; [reflexivity | discriminate].
  - split; [reflexivity | intros _; eexists; split; reflexivity].
  - split; [reflexivity | intros _; eexists; split; reflexivity].
Qed.

Lemma createInvoice_agrees_with_earlier_witness :
  invoices (fst (createInvoice no_state (form "c1" "20" "paid") cache_down 0%nat
                   two_invoices))
  = invoices (fst (EarlierActions.createInvoice (form "c1" "20" "paid") cache_down
                     0%nat two_invoices))
  /\ (store_rejects cache_down = false ->
      exists thrown,
        snd (createInvoice no_state (form "c1" "20" "paid") cache_down 0%nat
               two_invoices) = Throw thrown
        /\ snd (EarlierActions.createInvoice (form "c1" "20" "paid") cache_down 0%nat
                  two_invoices) = Throw thrown).
Proof.
  exact (createInvoice_agrees_with_earlier no_state (form "c1" "20" "paid") cache_down
           0%nat two_invoices eq_refl).
Defined.

(** ** The table across calls *)

Lemma events_record (w : World) (depth : nat) (e : Effect) :
  length (events (record w depth e)) = S (length (events w)).
Proof. unfold record. simpl. rewrite length_app. simpl. lia. Qed.

Lemma events_committed (statement : Statement) (env : Environment) (depth : nat)
    (w : World) :
  length (events (committed statement env depth w)) = S (length (events w)).
Proof. unfold committed. now rewrite events_record. Qed.

Lemma others_idempotent (i : string) (rows : list InvoiceRow) :
  others i (others i rows) = others i rows.
Proof.
  unfold others. induction rows as [| r rows IH]; simpl; [reflexivity |].
  destruct (negb (String.eqb (id r) i)) eqn:E; simpl; [| exact IH].
  now rewrite E, IH.
Qed.

Lemma others_fresh (i : string) (rows : list InvoiceRow) :
  ~ In i (map id rows) -> others i rows = rows.
Proof.
  unfold others. induction rows as [| r rows IH]; simpl; intros H; [reflexivity |].
  destruct (String.eqb_spec (id r) i) as [Heq | Hne]; simpl.
  - exfalso. apply H. now left.
  - f_equal. apply IH. intros Hin. apply H. now right.
Qed.

Lemma others_In (i : string) (rows : list InvoiceRow) (r : InvoiceRow) :
  In r (others i rows) <-> In r rows /\ id r <> i.
Proof.
  unfold others. rewrite filter_In. split; intros [H1 H2]; split; try exact H1.
  - destruct (String.eqb_spec (id r) i); [discriminate H2 | assumption].
  - destruct (String.eqb_spec (id r) i); [contradiction | reflexivity].
Qed.

Lemma rewrite_row_idempotent (i : string) (c a s : JSValue) (r : InvoiceRow) :
  rewrite_row i c a s (rewrite_row i c a s r) = rewrite_row i c a s r.
Proof.
  unfold rewrite_row. destruct (String.eqb (id r) i) eqn:E.
  - simpl. now rewrite E.
  - now rewrite E.
Qed.

Lemma deleteInvoice_table (i : string) (env : Environment) (depth : nat) (w : World) :
  store_rejects env = false ->
  invoices (fst (deleteInvoice i env depth w)) = others i (invoices w).
Proof.
  intros Hs. rewrite deleteInvoice_behaviour, Hs.
  destruct (revalidate_fails env); reflexivity.
Qed.

Lemma updateInvoice_rewrites (i : string) (formData : FormData)
    (env : Environment) (depth : nat) (w : World) :
  valid_form formData = true ->
  store_rejects env = false ->
  invoices (fst (updateInvoice i formData env depth w))
  = map (rewrite_row i (get formData "customerId") (cents formData)
           (get formData "status"))
        (invoices w).
Proof.
  intros Hv Hs. rewrite updateInvoice_behaviour, Hv, Hs.
  destruct (revalidate_fails env); reflexivity.
Qed.

(** X12. [createInvoice] and [updateInvoice] leave the world exactly as
    they found it when the form is invalid, and only then: for a valid
    form the store is always called (and the call recorded), for an
    invalid one nothing at all happens outside. *)
Theorem world_untouched_iff_invalid (prevState : State) (i : string)
    (formData : FormData) (env : Environment) (depth : nat) (w : World) :
  (fst (createInvoice prevState formData env depth w) = w
   <-> valid_form formData = false)
  /\ (fst (updateInvoice i formData env depth w) = w
      <-> valid_form formData = false).
Proof.
  assert (Hgrow : forall w' : World,
            (length (events w) < length (events w'))%nat -> w' <> w).
  { intros w' Hlt Heq. subst w'. lia. }
  split.
  - rewrite createInvoice_behaviour.
    destruct (valid_form formData); [| split; reflexivity].
    split; [| discriminate]. intros H. exfalso. revert H. apply Hgrow.
    cbv zeta. destruct (store_rejects env); [| destruct (revalidate_fails env)];
      simpl fst; rewrite ?events_record, ?events_committed; lia.
  - rewrite updateInvoice_behaviour.
    destruct (valid_form formData); [| split; reflexivity].
    split; [| discriminate]. intros H. exfalso. revert H. apply Hgrow.
    cbv zeta. destruct (store_rejects env); [| destruct (revalidate_fails env)];
      simpl fst; rewrite ?events_record, ?events_committed; lia.
Qed.

(** X13. Whatever the form, the store and the cache do, [updateInvoice]
    keeps the rows of the table in place with their identifiers and their
    dates: no row is added, removed, moved, renamed or re-dated. *)
Theorem updateInvoice_keeps_ids_and_dates (i : string) (formData : FormData)
    (env : Environment) (depth : nat) (w : World) :
  map id (invoices (fst (updateInvoice i formData env depth w)))
  = map id (invoices w)
  /\ map date (invoices (fst (updateInvoice i formData env depth w)))
     = map date (invoices w).
Proof.
  assert (Hrows :
            invoices (fst (updateInvoice i formData env depth w)) = invoices w
            \/ invoices (fst (updateInvoice i formData env depth w))
               = map (rewrite_row i (get formData "customerId") (cents formData)
                        (get formData "status"))
                     (invoices w)).
  { rewrite updateInvoice_behaviour.
    destruct (valid_form formData); [| now left].
    destruct (store_rejects env); [now left |].
    destruct (revalidate_fails env); right; reflexivity. }
  destruct Hrows as [-> | ->]; [split; reflexivity |].
  rewrite !map_map. split; apply map_ext; intros r; unfold rewrite_row;
    destruct (String.eqb (id r) i); reflexivity.
Qed.

(** X14. [updateInvoice] refuses exactly the forms [createInvoice]
    refuses, for the same reasons. Whenever [updateInvoice] ends by
    throwing a validation error, it has left the world as it was and
    [createInvoice], given the same form, returns the rejection whose
    error mapping is the flattened field errors of that very error;
    conversely, whenever [createInvoice] returns a result carrying an
    error mapping, [updateInvoice] throws, world untouched, a validation
    error that flattens to that mapping. So a form one of them accepts is
    never refused by the other. *)
Theorem updateInvoice_rejects_as_createInvoice (prevState : State) (i : string)
    (formData : FormData) (env : Environment) (depth : nat) (w : World) :
  (forall error,
     snd (updateInvoice i formData env depth w) = Throw (ThrownZodError error) ->
     updateInvoice i formData env depth w = (w, Throw (ThrownZodError error))
     /\ createInvoice prevState formData env depth w
        = (w, Return {| errors := Some (fieldErrors error);
                        message := Some "Missing Fields. Failed to Create Invoice." |}))
  /\ (forall errs msg,
        snd (createInvoice prevState formData env depth w)
        = Return {| errors := Some errs; message := msg |} ->
        exists error,
          updateInvoice i formData env depth w = (w, Throw (ThrownZodError error))
          /\ errs = fieldErrors error).
Proof.
  rewrite updateInvoice_behaviour, createInvoice_behaviour.
  destruct (valid_form formData).
  - cbv zeta.
    destruct (store_rejects env); [| destruct (revalidate_fails env)];
      (split; [intros error H | intros errs msg H]); discriminate H.
  - split.
    + intros error H. simpl in H. injection H as <-. split; reflexivity.
    + intros errs msg H. simpl in H. injection H as <- _.
      exists (form_issues formData). split; reflexivity.
Qed.

(** A form with a zero amount and an unknown status, refused by both. *)
Lemma updateInvoice_rejects_as_createInvoice_witness :
  exists error,
    updateInvoice "inv-1" (form "c1" "0" "draft") all_well 0%nat two_invoices
    = (two_invoices, Throw (ThrownZodError error))
    /\ fieldErrors (form_issues (form "c1" "0" "draft")) = fieldErrors error.
Proof.
  apply (proj2 (updateInvoice_rejects_as_createInvoice no_state "inv-1"
                  (form "c1" "0" "draft") all_well 0%nat two_invoices)
           (fieldErrors (form_issues (form "c1" "0" "draft")))
           (Some "Missing Fields. Failed to Create Invoice.")).
  rewrite createInvoice_rejects by reflexivity. reflexivity.
Defined.

(** X15. With a store that accepts the statements, [deleteInvoice] removes
    the rows of the identifier and no other (a row is in the table
    afterwards exactly when it was there and has another identifier), and
    deleting the same identifier again changes nothing. *)
Theorem deleteInvoice_twice (i : string) (env env' : Environment)
    (depth depth' : nat) (w : World) :
  store_rejects env = false ->
  store_rejects env' = false ->
  (forall r,
     In r (invoices (fst (deleteInvoice i env depth w)))
     <-> In r (invoices w) /\ id r <> i)
  /\ invoices (fst (deleteInvoice i env' depth' (fst (deleteInvoice i env depth w))))
     = invoices (fst (deleteInvoice i env depth w)).
Proof.
  intros Hs Hs'. split.
  - intros r. rewrite deleteInvoice_table by assumption. apply others_In.
  - rewrite !deleteInvoice_table by assumption. apply others_idempotent.
Qed.

Lemma deleteInvoice_twice_witness :
  (forall r,
     In r (invoices (fst (deleteInvoice "inv-1" all_well 0%nat two_invoices)))
     <-> In r (invoices two_invoices) /\ id r <> "inv-1")
  /\ invoices (fst (deleteInvoice "inv-1" cache_down 1%nat
                      (fst (deleteInvoice "inv-1" all_well 0%nat two_invoices))))
     = invoices (fst (deleteInvoice "inv-1" all_well 0%nat two_invoices)).
Proof.
  exact (deleteInvoice_twice "inv-1" all_well cache_down 0%nat 1%nat two_invoices
           eq_refl eq_refl).
Defined.

(** X16. Creating an invoice and then deleting it by the identifier the
    store gave it brings the table back to what it was, provided that
    identifier was not already in the table (form valid, store accepting
    both statements). *)
Theorem createInvoice_then_deleteInvoice (prevState : State) (formData : FormData)
    (env env' : Environment) (depth depth' : nat) (w : World) :
  valid_form formData = true ->
  store_rejects env = false ->
  store_rejects env' = false ->
  ~ In (generated_id env) (map id (invoices w)) ->
  invoices
    (fst (deleteInvoice (generated_id env) env' depth'
            (fst (createInvoice prevState formData env depth w))))
  = invoices w.
Proof.
  intros Hv Hs Hs' Hfresh.
  rewrite deleteInvoice_table by assumption.
  rewrite createInvoice_table by assumption.
  unfold others. rewrite List.filter_app. simpl.
  rewrite String.eqb_refl. simpl. rewrite app_nil_r.
  now apply others_fresh.
Qed.

Lemma createInvoice_then_deleteInvoice_witness :
  invoices
    (fst (deleteInvoice "inv-3" all_well 0%nat
            (fst (createInvoice no_state (form "c1" "19.99" "paid") all_well 0%nat
                    two_invoices))))
  = invoices two_invoices.
Proof.
  apply (createInvoice_then_deleteInvoice no_state (form "c1" "19.99" "paid")
           all_well all_well 0%nat 0%nat two_invoices);
    try reflexivity.
  simpl. intros [H | [H | []]]; discriminate H.
Defined.

(** X17. Submitting the same valid update twice leaves the table as after
    the first time (store accepting both statements). *)
Theorem updateInvoice_twice (i : string) (formData : FormData)
    (env env' : Environment) (depth depth' : nat) (w : World) :
  valid_form formData = true ->
  store_rejects env = false ->
  store_rejects env' = false ->
  invoices
    (fst (updateInvoice i formData env' depth'
            (fst (updateInvoice i formData env depth w))))
  = invoices (fst (updateInvoice i formData env depth w)).
Proof.
  intros Hv Hs Hs'. rewrite !updateInvoice_rewrites by assumption.
  rewrite map_map. apply map_ext. intros r. apply rewrite_row_idempotent.
Qed.

Lemma updateInvoice_twice_witness :
  invoices
    (fst (updateInvoice "inv-2" (form "c9" "19.99" "pending") cache_down 0%nat
            (fst (updateInvoice "inv-2" (form "c9" "19.99" "pending") all_well 0%nat
                    two_invoices))))
  = invoices
      (fst (updateInvoice "inv-2" (form "c9" "19.99" "pending") all_well 0%nat
              two_invoices)).
Proof.
  exact (updateInvoice_twice "inv-2" (form "c9" "19.99" "pending") all_well cache_down
           0%nat 0%nat two_invoices eq_refl eq_refl eq_refl).
Defined.

(** ** The cache failing after a write, and the shape of what is validated *)

(** X18. When the store has accepted the statement and the cache
    invalidation then fails, [createInvoice] and [updateInvoice] throw that
    failure to the caller (it is outside their [try] block, so no result
    object is returned), the write stays in the table, and no redirect is
    raised. *)
Theorem write_survives_cache_failure (prevState : State) (i : string)
    (formData : FormData) (env : Environment) (depth : nat) (w : World) :
  valid_form formData = true ->
  store_rejects env = false ->
  revalidate_fails env = true ->
  createInvoice prevState formData env depth w
  = ({| invoices := invoices w ++ [new_row formData env];
        events :=
          events w
          ++ [{| scope := S depth; effect := StoreWrite (insert_statement formData env) |};
              {| scope := depth;
                 effect := RevalidateFailure "/dashboard/invoices" |}] |},
     Throw RevalidateError)
  /\ updateInvoice i formData env depth w
     = ({| invoices :=
             map (rewrite_row i (get formData "customerId") (cents formData)
                    (get formData "status"))
                 (invoices w);
           events :=
             events w
             ++ [{| scope := S depth;
                    effect := StoreWrite (update_statement i formData) |};
                 {| scope := depth;
                    effect := RevalidateFailure "/dashboard/invoices" |}] |},
        Throw RevalidateError).
Proof.
  intros Hv Hs Hr. rewrite createInvoice_behaviour, updateInvoice_behaviour.
  rewrite Hv, Hs, Hr. unfold committed, record. simpl.
  rewrite <- !app_assoc. split; reflexivity.
Qed.

Lemma write_survives_cache_failure_witness :
  snd (createInvoice no_state (form "c1" "20" "paid") cache_down 0%nat two_invoices)
  = Throw RevalidateError
  /\ snd (updateInvoice "inv-1" (form "c1" "20" "paid") cache_down 0%nat two_invoices)
     = Throw RevalidateError.
Proof.
  destruct (write_survives_cache_failure no_state "inv-1" (form "c1" "20" "paid")
              cache_down 0%nat two_invoices eq_refl eq_refl eq_refl) as [Hc Hu].
  split.
  - exact (f_equal snd Hc).
  - exact (f_equal snd Hu).
Defined.

(** X19. What the create and update schema lets through, for any object
    handed to it (whatever its properties hold, missing or extra ones
    included): [safeParse] succeeds exactly when [customerId] is a string,
    [amount] coerces to a number above zero and [status] is "pending" or
    "paid"; the data it returns then are those three properties and no
    other, the amount as the coerced number. *)
Theorem safeParse_CreateInvoice_exactly (obj data : JSObject) :
  safeParse CreateInvoice obj = SafeParseSuccess data
  <-> customerId_ok (prop obj "customerId") = true
      /\ amount_ok (prop obj "amount") = true
      /\ status_ok (prop obj "status") = true
      /\ data = [ ("customerId", prop obj "customerId");
                  ("amount", VNumber (Number (prop obj "amount")));
                  ("status", prop obj "status") ].
Proof.
  unfold safeParse, parse_object, amount_ok.
  let c := eval vm_compute in CreateInvoice in change CreateInvoice with c.
  cbn [parse_shape _parse fst snd].
  generalize (Number (prop obj "amount")) as n.
  generalize (prop obj "customerId") as vc.
  generalize (prop obj "status") as vs.
  intros vs vc n.
  destruct vc as [| | c | nc | fc]; destruct vs as [| | s | ns | fs];
    destruct n as [sg | sg | | sg m e]; try destruct sg; cbn;
    try (split; [intros H; discriminate H
                | intros [H1 [H2 [H3 H4]]]; discriminate]);
    destruct (String.eqb s "pending"); destruct (String.eqb s "paid"); cbn;
    try (split; [intros H; discriminate H
                | intros [H1 [H2 [H3 H4]]]; discriminate]);
    (split; [intros H; injection H as <-; auto
            | intros [_ [_ [_ ->]]]; reflexivity]).
Qed.

Lemma messages_at_singleton_other (key k : string) (c : ZodIssueCode) (m : string) :
  k <> key ->
  messages_at key [{| code := c; path := [k]; Zod.message := m |}] = [].
Proof.
  intros H. unfold messages_at. simpl.
  destruct (String.eqb_spec k key); [contradiction | reflexivity].
Qed.

Lemma form_errors_other (formData : FormData) (key : string) :
  key <> "customerId" -> key <> "amount" -> key <> "status" ->
  fieldErrors (form_issues formData) !! key = None.
Proof.
  intros Hc Ha Hs. rewrite fieldErrors_lookup. unfold form_issues.
  rewrite !messages_at_app.
  replace (messages_at key (customerId_issues _)) with (@nil string).
  2:{ unfold customerId_issues. destruct (customerId_ok _); [reflexivity |].
      symmetry. apply messages_at_singleton_other. congruence. }
  replace (messages_at key (amount_issues _)) with (@nil string).
  2:{ unfold amount_issues. destruct (isNaN _);
        [symmetry; apply messages_at_singleton_other; congruence |].
      destruct (leb _ _); [| reflexivity].
      symmetry. apply messages_at_singleton_other. congruence. }
  replace (messages_at key (status_issues _)) with (@nil string).
  2:{ unfold status_issues.
      destruct (get formData "status");
        try (symmetry; apply messages_at_singleton_other; congruence).
      destruct (status_ok _); [reflexivity |].
      symmetry. apply messages_at_singleton_other. congruence. }
  reflexivity.
Qed.

(** X20. The error mapping [createInvoice] returns for an invalid form has
    entries for the fields [customerId], [amount] and [status] only, and
    each entry it has is a list of exactly one message: a field never
    collects two messages. *)
Theorem createInvoice_error_mapping_shape (prevState : State) (formData : FormData)
    (env : Environment) (depth : nat) (w : World) (key : string) :
  valid_form formData = false ->
  errors_at key (createInvoice prevState formData env depth w) = None
  \/ (In key ["customerId"; "amount"; "status"]
      /\ exists m,
           errors_at key (createInvoice prevState formData env depth w) = Some [m]).
Proof.
  intros Hv. unfold errors_at. rewrite createInvoice_rejects by exact Hv. simpl.
  destruct (String.eqb_spec key "customerId") as [-> | Hc].
  { rewrite form_errors_customerId. unfold customerId_issues.
    destruct (customerId_ok _); [now left | right].
    split; [simpl; tauto | eexists; reflexivity]. }
  destruct (String.eqb_spec key "amount") as [-> | Ha].
  { rewrite form_errors_amount. unfold amount_issues.
    destruct (isNaN _); [right; split; [simpl; tauto | eexists; reflexivity] |].
    destruct (leb _ _); [right; split; [simpl; tauto | eexists; reflexivity] |].
    now left. }
  destruct (String.eqb_spec key "status") as [-> | Hs].
  { rewrite form_errors_status. unfold status_issues.
    destruct (get formData "status");
      try (right; split; [simpl; tauto | eexists; reflexivity]).
    destruct (status_ok _); [now left |].
    right; split; [simpl; tauto | eexists; reflexivity]. }
  left. now apply form_errors_other.
Qed.

Lemma createInvoice_error_mapping_shape_witness :
  errors_at "amount"
    (createInvoice no_state [("amount", EntryFile "bill.pdf")] all_well 0%nat
       two_invoices) = None
  \/ (In "amount" ["customerId"; "amount"; "status"]
      /\ exists m,
           errors_at "amount"
             (createInvoice no_state [("amount", EntryFile "bill.pdf")] all_well 0%nat
                two_invoices) = Some [m]).
Proof.
  exact (createInvoice_error_mapping_shape no_state [("amount", EntryFile "bill.pdf")]
           all_well 0%nat two_invoices "amount" eq_refl).
Defined.

(** X21. [updateInvoice] takes the row to write from its [id] argument and
    the three fields [customerId], [amount] and [status] of the form, and
    from nothing else in the form: two forms that agree on these fields
    give the same run, so an [id] or a [date] entry in the form has no
    effect. *)
Theorem updateInvoice_reads_three_fields (i : string) (formData formData' : FormData)
    (env : Environment) (depth : nat) (w : World) :
  (forall key, In key ["customerId"; "amount"; "status"] ->
               get formData key = get formData' key) ->
  updateInvoice i formData env depth w = updateInvoice i formData' env depth w.
Proof.
  intros H. rewrite !updateInvoice_behaviour.
  unfold valid_form, update_statement, form_issues.
  rewrite (H "customerId"), (H "amount"), (H "status") by (simpl; tauto).
  reflexivity.
Qed.

Lemma updateInvoice_reads_three_fields_witness :
  updateInvoice "inv-1"
    (("id", EntryString "inv-2") :: ("date", EntryString "1999-01-01")
       :: form "c1" "20" "paid")
    all_well 0%nat two_invoices
  = updateInvoice "inv-1" (form "c1" "20" "paid") all_well 0%nat two_invoices.
Proof.
  apply updateInvoice_reads_three_fields.
  intros key Hk. simpl in Hk.
  destruct Hk as [<- | [<- | [<- | []]]]; reflexivity.
Defined.
